(** * Revhub: the /api/science-eq Pages Function

    A shallow embedding of [functions/api/science-eq.js] and the properties
    of its two handlers, [onRequestOptions] and [onRequestPost].

    The handler is JavaScript, so the embedding follows JavaScript's own
    rules where the code relies on them: truthiness ([!x], [x || y]),
    optional chaining ([x?.k]), property lookup through the prototype of
    an object literal, [ToString] of a value used as a property key or
    inside a template literal, and exceptions with [try] / [catch].

    Layout: JavaScript values, [JSON.parse], the platform parameters,
    the monad of exceptions and provider calls, the functions of the
    source file in source order, the vocabulary of the statements and the
    fixtures of the examples; then the facts, the properties of the two
    handlers, and the handlers run on concrete requests; last, further
    properties read off the code (every way a POST can end, and what
    follows from it), with their concrete requests. *)

From Stdlib Require Import List String Ascii Bool NArith ZArith Lia.
From Stdlib Require Import DecimalString.
Import ListNotations.
Open Scope string_scope.
Open Scope list_scope.

Set Implicit Arguments.
Set Warnings "-register-all".

(* ================================================================== *)
(** ** Strings *)

(** A JavaScript string is a sequence of 16-bit code units; [jstr] keeps
    the code units as numbers.  [js] turns a literal of the development
    into one (every literal below is ASCII, one code unit a character). *)

Definition jstr := list N.

Definition js (s : string) : jstr := map N_of_ascii (list_ascii_of_string s).

Fixpoint jstr_eqb (a b : jstr) : bool :=
  match a, b with
  | [], [] => true
  | x :: a', y :: b' => N.eqb x y && jstr_eqb a' b'
  | _, _ => false
  end.

(** [Array.prototype.join] on strings. *)
Fixpoint join (sep : jstr) (parts : list jstr) : jstr :=
  match parts with
  | [] => []
  | [p] => p
  | p :: rest => p ++ sep ++ join sep rest
  end.

(** The code units [String.prototype.trim] strips: WhiteSpace and
    LineTerminator of ECMA-262. *)
Definition is_js_space (c : N) : bool :=
  existsb (N.eqb c)
    [9; 10; 11; 12; 13; 32; 160; 5760; 8232; 8233; 8239; 8287; 12288; 65279]%N
  || (N.leb 8192 c && N.leb c 8202).

Fixpoint trim_start (s : jstr) : jstr :=
  match s with
  | c :: r => if is_js_space c then trim_start r else s
  | [] => []
  end.

Definition trim (s : jstr) : jstr := rev (trim_start (rev (trim_start s))).

(** A literal that holds double quotes, written with apostrophes: Rocq
    would have them doubled. *)
Definition jq (s : string) : jstr :=
  map (fun c => if N.eqb c 39 then 34%N else c) (js s).

(** Decimal digits of a natural number, as [`${n}`] prints an integer. *)
Definition decimal (n : N) : jstr := js (NilZero.string_of_uint (N.to_uint n)).

(* ================================================================== *)
(** ** Values *)

(** The values the handler meets: [undefined] and what [JSON.parse]
    builds.  A number is kept as the decimal literal it was read from,
    [VNum m e] standing for [m * 10^e]; the handler never computes with a
    number, it only asks whether one is zero.  An object is the list of
    its own properties, keys unique. *)

Inductive value : Type :=
| VUndefined
| VNull
| VBool (b : bool)
| VNum (m e : Z)
| VStr (s : jstr)
| VArr (items : list value)
| VObj (props : list (jstr * value)).

(** The literal [m * 10^e] read as a double is [0] (or [-0]) when [m] is
    zero, or when it is so small that it rounds to zero: at most
    [2^-1075], half the least subnormal (ties go to the even [0]). *)
Definition num_is_zero (m e : Z) : bool :=
  (m =? 0)%Z || ((e <? 0)%Z && (Z.abs m * 2 ^ 1075 <=? 10 ^ (- e))%Z).

(** [ToBoolean]. *)
Definition truthy (v : value) : bool :=
  match v with
  | VUndefined | VNull => false
  | VBool b => b
  | VNum m e => negb (num_is_zero m e)
  | VStr s => match s with [] => false | _ => true end
  | VArr _ | VObj _ => true
  end.

(** [a || b]. *)
Definition or_else (a b : value) : value := if truthy a then a else b.

(** [typeof v === 'undefined']. *)
Definition is_undefined (v : value) : bool :=
  match v with VUndefined => true | _ => false end.

Fixpoint lookup (k : jstr) (ps : list (jstr * value)) : option value :=
  match ps with
  | [] => None
  | (k', v) :: r => if jstr_eqb k k' then Some v else lookup k r
  end.

(** Writing a property: an existing key keeps its place and takes the new
    value, a new key goes last. *)
Fixpoint obj_set (k : jstr) (v : value) (ps : list (jstr * value))
  : list (jstr * value) :=
  match ps with
  | [] => [(k, v)]
  | (k', v') :: r =>
      if jstr_eqb k k' then (k, v) :: r else (k', v') :: obj_set k v r
  end.

(** [v.k] for the property names the handler reads: [action], [subject],
    [topic], [question], [answer], [choices], [message], [content],
    [grade_band], [score], [feedback], [improved_answer].  None of them is
    a property of a built-in prototype, so only an object's own property
    answers; on an array, a string, a number or a boolean the result is
    [undefined].  The source reads [v.k] only where [v] is known not to be
    [undefined] or [null] (after [body || {}], after a truthy [v?.k]). *)
Definition get (v : value) (k : jstr) : value :=
  match v with
  | VObj ps => match lookup k ps with Some x => x | None => VUndefined end
  | _ => VUndefined
  end.

(** [v?.k]: [undefined] when [v] is [undefined] or [null]. *)
Definition opt_get (v : value) (k : jstr) : value := get v k.

(** [v?.[0]]: the first element of an array, the first code unit of a
    string, the property ["0"] of an object. *)
Definition opt_index0 (v : value) : value :=
  match v with
  | VArr (x :: _) => x
  | VStr (c :: _) => VStr [c]
  | VObj ps => match lookup (js "0") ps with Some x => x | None => VUndefined end
  | _ => VUndefined
  end.

(** [{ k1: v1, ... }]. *)
Definition obj (fields : list (string * value)) : value :=
  VObj (map (fun '(k, v) => (js k, v)) fields).

Definition str (s : string) : value := VStr (js s).

(* ================================================================== *)
(** ** Exceptions *)

Record JsError : Type := mkError { name : jstr; message : jstr }.

Definition Error (msg : jstr) : JsError := mkError (js "Error") msg.
Definition TypeError (msg : jstr) : JsError := mkError (js "TypeError") msg.

(** What evaluating an expression ends in: a value, or a thrown error. *)
Inductive completion (A : Type) : Type :=
| Normal (a : A)
| Throw (e : JsError).

Arguments Normal {A} a.
Arguments Throw {A} e.

(* ================================================================== *)
(** ** JSON.parse *)

Module JSON.

Inductive token : Type :=
| TLBrace | TRBrace | TLBracket | TRBracket | TColon | TComma
| TString (s : jstr)
| TNumber (m e : Z)
| TTrue | TFalse | TNull.

(** *** Lexer: one code unit a step *)

Inductive numphase : Type :=
| NMinus      (* after '-': a digit must follow *)
| NZero       (* after a leading 0 *)
| NInt        (* in the digits of the integer part *)
| NDot        (* after '.': a digit must follow *)
| NFrac       (* in the digits of the fraction *)
| NExp        (* after 'e' or 'E': a sign or a digit must follow *)
| NExpSign    (* after the sign of the exponent: a digit must follow *)
| NExpDigits. (* in the digits of the exponent *)

Record numacc : Type := mkNum {
  neg : bool;      (* a leading '-' *)
  mant : Z;        (* the digits read so far, integer part and fraction *)
  fracs : Z;       (* how many of them are fraction digits *)
  eneg : bool;     (* a '-' in the exponent *)
  expo : Z         (* the exponent's digits *)
}.

Inductive lexstate : Type :=
| LIdle
| LStr (acc : jstr)                  (* in a string; [acc] is reversed *)
| LEsc (acc : jstr)                  (* after a backslash *)
| LHex (acc : jstr) (k : nat) (v : N) (* in \uXXXX, [S k] digits to come *)
| LNum (ph : numphase) (a : numacc)
| LWord (rest : jstr) (t : token).   (* in true, false or null *)

Definition is_ws (c : N) : bool :=
  N.eqb c 32 || N.eqb c 9 || N.eqb c 10 || N.eqb c 13.

Definition digit_of (c : N) : option Z :=
  if N.leb 48 c && N.leb c 57 then Some (Z.of_N (c - 48)) else None.

Definition hex_of (c : N) : option N :=
  if N.leb 48 c && N.leb c 57 then Some (c - 48)%N
  else if N.leb 97 c && N.leb c 102 then Some (c - 87)%N
  else if N.leb 65 c && N.leb c 70 then Some (c - 55)%N
  else None.

Definition num_token (a : numacc) : token :=
  TNumber (if neg a then - mant a else mant a)
          ((if eneg a then - expo a else expo a) - fracs a).

Definition push_digit (a : numacc) (d : Z) : numacc :=
  mkNum (neg a) (mant a * 10 + d) (fracs a) (eneg a) (expo a).

Definition push_frac (a : numacc) (d : Z) : numacc :=
  mkNum (neg a) (mant a * 10 + d) (fracs a + 1) (eneg a) (expo a).

Definition push_exp (a : numacc) (d : Z) : numacc :=
  mkNum (neg a) (mant a) (fracs a) (eneg a) (expo a * 10 + d).

Definition set_eneg (a : numacc) : numacc :=
  mkNum (neg a) (mant a) (fracs a) true (expo a).

Definition num0 (sign : bool) (d : Z) : numacc := mkNum sign d 0 false 0.

(** A code unit met between tokens. *)
Definition lex_idle (c : N) : option (lexstate * list token) :=
  if is_ws c then Some (LIdle, [])
  else if N.eqb c 123 then Some (LIdle, [TLBrace])
  else if N.eqb c 125 then Some (LIdle, [TRBrace])
  else if N.eqb c 91 then Some (LIdle, [TLBracket])
  else if N.eqb c 93 then Some (LIdle, [TRBracket])
  else if N.eqb c 58 then Some (LIdle, [TColon])
  else if N.eqb c 44 then Some (LIdle, [TComma])
  else if N.eqb c 34 then Some (LStr [], [])
  else if N.eqb c 45 then Some (LNum NMinus (num0 true 0), [])
  else if N.eqb c 48 then Some (LNum NZero (num0 false 0), [])
  else if N.eqb c 116 then Some (LWord (js "rue") TTrue, [])
  else if N.eqb c 102 then Some (LWord (js "alse") TFalse, [])
  else if N.eqb c 110 then Some (LWord (js "ull") TNull, [])
  else match digit_of c with
       | Some d => Some (LNum NInt (num0 false d), [])
       | None => None
       end.

(** The number ends before [c]: emit it and read [c] between tokens. *)
Definition num_done (a : numacc) (c : N) : option (lexstate * list token) :=
  match lex_idle c with
  | Some (st, out) => Some (st, num_token a :: out)
  | None => None
  end.

Definition is_e (c : N) : bool := N.eqb c 101 || N.eqb c 69.

Definition lex_num (ph : numphase) (a : numacc) (c : N)
  : option (lexstate * list token) :=
  match ph, digit_of c with
  | NMinus, Some d =>
      if (d =? 0)%Z then Some (LNum NZero a, [])
      else Some (LNum NInt (push_digit a d), [])
  | NMinus, None => None
  | NZero, _ =>
      if N.eqb c 46 then Some (LNum NDot a, [])
      else if is_e c then Some (LNum NExp a, [])
      else num_done a c
  | NInt, Some d => Some (LNum NInt (push_digit a d), [])
  | NInt, None =>
      if N.eqb c 46 then Some (LNum NDot a, [])
      else if is_e c then Some (LNum NExp a, [])
      else num_done a c
  | NDot, Some d => Some (LNum NFrac (push_frac a d), [])
  | NDot, None => None
  | NFrac, Some d => Some (LNum NFrac (push_frac a d), [])
  | NFrac, None =>
      if is_e c then Some (LNum NExp a, []) else num_done a c
  | NExp, Some d => Some (LNum NExpDigits (push_exp a d), [])
  | NExp, None =>
      if N.eqb c 43 then Some (LNum NExpSign a, [])
      else if N.eqb c 45 then Some (LNum NExpSign (set_eneg a), [])
      else None
  | NExpSign, Some d => Some (LNum NExpDigits (push_exp a d), [])
  | NExpSign, None => None
  | NExpDigits, Some d => Some (LNum NExpDigits (push_exp a d), [])
  | NExpDigits, None => num_done a c
  end.

Definition lex_step (st : lexstate) (c : N) : option (lexstate * list token) :=
  match st with
  | LIdle => lex_idle c
  | LStr acc =>
      if N.eqb c 34 then Some (LIdle, [TString (rev acc)])
      else if N.eqb c 92 then Some (LEsc acc, [])
      else if N.ltb c 32 then None
      else Some (LStr (c :: acc), [])
  | LEsc acc =>
      if N.eqb c 34 || N.eqb c 92 || N.eqb c 47 then Some (LStr (c :: acc), [])
      else if N.eqb c 98 then Some (LStr (8%N :: acc), [])
      else if N.eqb c 102 then Some (LStr (12%N :: acc), [])
      else if N.eqb c 110 then Some (LStr (10%N :: acc), [])
      else if N.eqb c 114 then Some (LStr (13%N :: acc), [])
      else if N.eqb c 116 then Some (LStr (9%N :: acc), [])
      else if N.eqb c 117 then Some (LHex acc 3 0%N, [])
      else None
  | LHex acc k v =>
      match hex_of c with
      | Some d =>
          match k with
          | O => Some (LStr ((16 * v + d)%N :: acc), [])
          | S k' => Some (LHex acc k' (16 * v + d)%N, [])
          end
      | None => None
      end
  | LNum ph a => lex_num ph a c
  | LWord rest t =>
      match rest with
      | r :: rest' =>
          if N.eqb c r
          then match rest' with
               | [] => Some (LIdle, [t])
               | _ => Some (LWord rest' t, [])
               end
          else None
      | [] => None
      end
  end.

(** The end of the text: fine between tokens and after a complete number. *)
Definition lex_end (st : lexstate) : option (list token) :=
  match st with
  | LIdle => Some []
  | LNum ph a =>
      match ph with
      | NZero | NInt | NFrac | NExpDigits => Some [num_token a]
      | _ => None
      end
  | _ => None
  end.

Fixpoint lex (st : lexstate) (s : jstr) : option (list token) :=
  match s with
  | [] => lex_end st
  | c :: r =>
      match lex_step st c with
      | Some (st', out) =>
          match lex st' r with
          | Some toks => Some (out ++ toks)
          | None => None
          end
      | None => None
      end
  end.

(** *** Parser: one token a step, the open arrays and objects on a stack *)

Inductive frame : Type :=
| FArr (acc : list value)                    (* the elements read so far *)
| FObj (acc : list (jstr * value)) (k : jstr). (* the members read, the key read *)

Inductive pstate : Type :=
| PValue (stk : list frame)    (* a value comes next *)
| PArrOpen (stk : list frame)  (* after '[': a value or ']' *)
| PObjOpen (stk : list frame)  (* after '{': a key or '}' *)
| PKey (acc : list (jstr * value)) (stk : list frame)   (* after ',': a key *)
| PColon (acc : list (jstr * value)) (k : jstr) (stk : list frame)
| PArrNext (acc : list value) (stk : list frame)        (* ',' or ']' *)
| PObjNext (acc : list (jstr * value)) (stk : list frame) (* ',' or '}' *)
| PDone (v : value).

(** A value is complete: it goes to the innermost open array or object. *)
Definition supply (v : value) (stk : list frame) : pstate :=
  match stk with
  | [] => PDone v
  | FArr acc :: stk' => PArrNext (acc ++ [v]) stk'
  | FObj acc k :: stk' => PObjNext (obj_set k v acc) stk'
  end.

Definition start_value (stk : list frame) (t : token) : option pstate :=
  match t with
  | TString s => Some (supply (VStr s) stk)
  | TNumber m e => Some (supply (VNum m e) stk)
  | TTrue => Some (supply (VBool true) stk)
  | TFalse => Some (supply (VBool false) stk)
  | TNull => Some (supply VNull stk)
  | TLBracket => Some (PArrOpen stk)
  | TLBrace => Some (PObjOpen stk)
  | _ => None
  end.

Definition pstep (st : pstate) (t : token) : option pstate :=
  match st, t with
  | PValue stk, _ => start_value stk t
  | PArrOpen stk, TRBracket => Some (supply (VArr []) stk)
  | PArrOpen stk, _ => start_value (FArr [] :: stk) t
  | PObjOpen stk, TRBrace => Some (supply (VObj []) stk)
  | PObjOpen stk, TString k => Some (PColon [] k stk)
  | PKey acc stk, TString k => Some (PColon acc k stk)
  | PColon acc k stk, TColon => Some (PValue (FObj acc k :: stk))
  | PArrNext acc stk, TComma => Some (PValue (FArr acc :: stk))
  | PArrNext acc stk, TRBracket => Some (supply (VArr acc) stk)
  | PObjNext acc stk, TComma => Some (PKey acc stk)
  | PObjNext acc stk, TRBrace => Some (supply (VObj acc) stk)
  | _, _ => None
  end.

Fixpoint prun (st : pstate) (toks : list token) : option value :=
  match toks with
  | [] => match st with PDone v => Some v | _ => None end
  | t :: r => match pstep st t with Some st' => prun st' r | None => None end
  end.

(** [JSON.parse(text)]: [None] when it throws a [SyntaxError]. *)
Definition parse (text : jstr) : option value :=
  match lex LIdle text with
  | Some toks => prun (PValue []) toks
  | None => None
  end.

End JSON.

(* ================================================================== *)
(** ** The platform *)

(** What the runtime provides and the source file only calls.  The
    development is parametric in it: [new URL(s)] (the WHATWG URL parser,
    of which the code reads three fields) and the digits [String(x)]
    prints for a number.  Of the URL parser one fact is used: without a
    base, the empty string is not a URL. *)

Record URL : Type := mkURL {
  protocol : jstr;   (* the scheme and its colon, as in "https:" *)
  hostname : jstr;
  port : jstr        (* empty for the scheme's default port *)
}.

Record Platform : Type := mkPlatform {
  URL_parse : jstr -> option URL;      (* [new URL(s)], [None] when it throws *)
  Number_toString : Z -> Z -> jstr;    (* [String(x)], [x] read from [m * 10^e] *)
  URL_parse_empty : URL_parse [] = None  (* [new URL('')] throws *)
}.

(** The incoming request: its [Origin] header, if any, and the text of
    its body. *)
Record Request : Type := mkRequest {
  Origin : option jstr;
  body : jstr
}.

(** [env.OPENAI_API_KEY]: a string, or [None] for [undefined]. *)
Record Env : Type := mkEnv { OPENAI_API_KEY : option jstr }.

Record EventContext : Type := mkContext { request : Request; env : Env }.

Record Response : Type := mkResponse {
  status : N;
  headers : list (jstr * jstr);
  data : option value   (* the value given to [JSON.stringify], [None] for a null body *)
}.

(** A call of [fetch]: the URL and the init object of the source. *)
Record provider_request : Type := mkCall {
  url : jstr;
  method : jstr;
  req_headers : list (jstr * jstr);
  payload : value    (* the value given to [JSON.stringify] for the body *)
}.

(** What [fetch] resolves to: the status and what [resp.json()] gives. *)
Record provider_response : Type := mkReply {
  resp_status : N;
  resp_json : completion value
}.

(** [resp.ok]. *)
Definition ok (r : provider_response) : bool :=
  N.leb 200 (resp_status r) && N.leb (resp_status r) 299.

Inductive fetch_result : Type :=
| Rejects (e : JsError)
| Resolves (r : provider_response).

(* ================================================================== *)
(** ** Effects: exceptions and the log of provider calls *)

Definition M (A : Type) : Type := (completion A * list provider_request)%type.

Definition ret {A} (a : A) : M A := (Normal a, []).

Definition throw {A} (e : JsError) : M A := (Throw e, []).

Definition lift {A} (c : completion A) : M A := (c, []).

Definition bind {A B} (m : M A) (f : A -> M B) : M B :=
  match m with
  | (Normal a, log) => let '(r, log') := f a in (r, log ++ log')
  | (Throw e, log) => (Throw e, log)
  end.

(** [try { m } catch (e) { h e }]. *)
Definition try_catch {A} (m : M A) (h : JsError -> M A) : M A :=
  match m with
  | (Throw e, log) => let '(r, log') := h e in (r, log ++ log')
  | done => done
  end.

Notation "x <- m ;; k" := (bind m (fun x => k))
  (at level 61, m at next level, right associativity).

(** The response a handler returned, if it returned. *)
Definition returned {A} (m : M A) : option A :=
  match fst m with Normal a => Some a | Throw _ => None end.

(** The provider calls a handler made. *)
Definition calls {A} (m : M A) : list provider_request := snd m.

(* ================================================================== *)
(** ** science-eq.js *)

Section ScienceEq.

Variable platform : Platform.

(** The provider: what the global [fetch] answers to each call. *)
Variable fetch : provider_request -> fetch_result.

Definition await_fetch (call : provider_request) : M provider_response :=
  match fetch call with
  | Rejects e => (Throw e, [call])
  | Resolves r => (Normal r, [call])
  end.

(** *** Conversions the code relies on *)

(** [ToString], as a template literal and a computed property key apply
    it.  An array prints its elements joined by commas, [null] and
    [undefined] elements as nothing.  An object built by [JSON.parse]
    prints as [[object Object]], unless it has an own property
    [toString]: that one is not a function, [valueOf] does not give a
    primitive, and the conversion throws.  The recursion follows the
    nesting of arrays to any depth: the bound an engine puts on it, a
    RangeError on arrays nested thousands deep, is not modelled, and no
    statement below says which error the conversion throws. *)
Fixpoint ToString (v : value) : completion jstr :=
  match v with
  | VUndefined => Normal (js "undefined")
  | VNull => Normal (js "null")
  | VBool b => Normal (if b then js "true" else js "false")
  | VNum m e => Normal (Number_toString platform m e)
  | VStr s => Normal s
  | VArr items =>
      let fix parts (l : list value) : completion (list jstr) :=
        match l with
        | [] => Normal []
        | x :: r =>
            let first :=
              match x with
              | VUndefined | VNull => Normal []
              | _ => ToString x
              end in
            match first, parts r with
            | Normal s, Normal ss => Normal (s :: ss)
            | Throw e, _ => Throw e
            | _, Throw e => Throw e
            end
        end in
      match parts items with
      | Normal ps => Normal (join (js ",") ps)
      | Throw e => Throw e
      end
  | VObj ps =>
      match lookup (js "toString") ps with
      | Some _ => Throw (TypeError (js "Cannot convert object to primitive value"))
      | None => Normal (js "[object Object]")
      end
  end.

(** [JSON.parse(v)] inside a [try] whose [catch] ignores the error:
    [None] when the conversion of [v] to a string or the parse throws. *)
Definition JSON_parse (v : value) : option value :=
  match ToString v with
  | Normal text => JSON.parse text
  | Throw _ => None
  end.

(** [a === s] for a string literal [s]. *)
Definition is_string (a : value) (s : string) : bool :=
  match a with VStr x => jstr_eqb x (js s) | _ => false end.

(** *** ALLOWED (lines 4-8) *)

Definition ALLOWED : list (jstr * list jstr) :=
  [ (js "Physics", [js "Electricity"; js "Forces & Motion"]);
    (js "Chemistry", [js "Acids & Bases"; js "Atomic Structure"]);
    (js "Biology", [js "Genetics"; js "Human Body (3 Main Systems)"]) ].

(** [ALLOWED] is an object literal, so its prototype is
    [Object.prototype] and [ALLOWED[key]] also finds what that prototype
    defines: functions, and under [__proto__] the prototype itself. *)
Definition Object_prototype_keys : list jstr :=
  map js [ "constructor"; "__defineGetter__"; "__defineSetter__";
           "hasOwnProperty"; "__lookupGetter__"; "__lookupSetter__";
           "isPrototypeOf"; "propertyIsEnumerable"; "toString"; "valueOf";
           "__proto__"; "toLocaleString" ].

Inductive member : Type :=
| Own (topics : list jstr)  (* one of the three arrays *)
| Inherited                 (* a property of Object.prototype: truthy, no [includes] *)
| Missing.                  (* undefined *)

Fixpoint own_topics (key : jstr) (table : list (jstr * list jstr))
  : option (list jstr) :=
  match table with
  | [] => None
  | (k, ts) :: r => if jstr_eqb key k then Some ts else own_topics key r
  end.

(** [ALLOWED[key]]. *)
Definition ALLOWED_at (key : jstr) : member :=
  match own_topics key ALLOWED with
  | Some ts => Own ts
  | None =>
      if existsb (jstr_eqb key) Object_prototype_keys then Inherited else Missing
  end.

(** [topics.includes(topic)]: an element equals [topic] when [topic] is
    the same string. *)
Definition includes (topics : list jstr) (topic : value) : bool :=
  match topic with
  | VStr t => existsb (jstr_eqb t) topics
  | _ => false
  end.

(** *** getCorsOrigin (lines 10-28) *)

Definition allowed_origins : list jstr :=
  map js [ "https://artinamr.xyz";
           "http://localhost";
           "http://localhost:3000";
           "http://127.0.0.1:3000";
           "http://127.0.0.1:5500";
           "http://127.0.0.1:8788";
           "http://localhost:8788" ].

Definition canonical_origin : jstr := js "https://artinamr.xyz".

(** [`${u.protocol}//${u.hostname}${u.port ? ':' + u.port : ''}`]. *)
Definition base_of (u : URL) : jstr :=
  protocol u ++ js "//" ++ hostname u
  ++ (match port u with [] => [] | p => js ":" ++ p end).

Definition getCorsOrigin (request : Request) : jstr :=
  let origin :=
    match Origin request with
    | Some (c :: o) => c :: o
    | _ => []
    end in
  match URL_parse platform origin with
  | Some u =>
      let base := base_of u in
      if existsb (jstr_eqb base) allowed_origins then base else canonical_origin
  | None => canonical_origin
  end.

(** *** jsonResponse (lines 30-39) *)

(** [headers.set(name, value)].  The list keeps the names as the source
    writes them, in the order they were set; the platform's [Headers]
    compares names without case and lists them lower-cased and sorted,
    so only the lookups by name and the number of headers are meant. *)
Fixpoint headers_set (name value : jstr) (hs : list (jstr * jstr))
  : list (jstr * jstr) :=
  match hs with
  | [] => [(name, value)]
  | (n, v) :: r =>
      if jstr_eqb name n then (name, value) :: r
      else (n, v) :: headers_set name value r
  end.

Fixpoint headers_get (name : jstr) (hs : list (jstr * jstr)) : option jstr :=
  match hs with
  | [] => None
  | (n, v) :: r => if jstr_eqb name n then Some v else headers_get name r
  end.

(** Every call of the source passes [{ status }] as [init], so
    [init.headers || {}] is the empty object. *)
Definition jsonResponse (data : value) (init_status : N) (origin : jstr)
  : Response :=
  let headers := [] in
  let headers := headers_set (js "Content-Type") (js "application/json") headers in
  let headers :=
    match origin with
    | [] => headers
    | _ =>
        let headers := headers_set (js "Access-Control-Allow-Origin") origin headers in
        let headers :=
          headers_set (js "Access-Control-Allow-Methods") (js "POST, OPTIONS") headers in
        headers_set (js "Access-Control-Allow-Headers")
                    (js "Content-Type, Authorization") headers
    end in
  mkResponse init_status headers (Some data).

(** *** The provider call shared by both actions (lines 64-74, 115-125) *)

Definition nl : jstr := [10%N].

Definition chat_request (apiKey : jstr) (temperature : value)
           (system user : jstr) : provider_request :=
  mkCall (js "https://api.openai.com/v1/chat/completions")
         (js "POST")
         [ (js "Authorization", js "Bearer " ++ apiKey);
           (js "Content-Type", js "application/json") ]
         (obj [ ("model", str "gpt-4o-mini");
                ("temperature", temperature);
                ("response_format", obj [("type", str "json_object")]);
                ("messages",
                 VArr [ obj [("role", str "system"); ("content", VStr system)];
                        obj [("role", str "user"); ("content", VStr user)] ]) ]).

(** [data?.choices?.[0]?.message?.content || '']. *)
Definition reply_content (data : value) : value :=
  or_else
    (opt_get (opt_get (opt_index0 (opt_get data (js "choices"))) (js "message"))
             (js "content"))
    (VStr []).

(** From [fetch] to [content]: the call, the check of [resp.ok], then
    [resp.json()]. *)
Definition chat (call : provider_request) : M value :=
  resp <- await_fetch call ;;
  if negb (ok resp)
  then throw (Error (js "OpenAI error (" ++ decimal (resp_status resp) ++ js ")"))
  else
    data <- lift (resp_json resp) ;;
    ret (reply_content data).

(** *** generateQuestion (lines 41-79) *)

Definition generate_system : jstr :=
  join (js " ")
    (map jq
      [ "You are a New Zealand Year 10 Science tutor.";
        "Generate ONE Excellence-level (E) question appropriate for Year 10 difficulty.";
        "It must be strictly relevant to the given subject and topic constraints:";
        "- Physics: Electricity OR Forces & Motion";
        "- Chemistry: Acids & Bases OR Atomic Structure (exclude isotopes)";
        "- Biology: Genetics OR the Human Body (focus on 3 main systems)";
        "Output JSON of the shape: {'question':'...'} and ONLY that JSON."
      ]).

Definition generate_user (subject topic : jstr) : jstr :=
  js "Subject: " ++ subject ++ nl
  ++ js "Topic: " ++ topic ++ nl
  ++ js "Constraints:" ++ nl
  ++ js "- Keep to Year 10 depth." ++ nl
  ++ js "- Create a single exam-style prompt that requires reasoning/worked steps." ++ nl
  ++ js "- Do not include the answer." ++ nl
  ++ js "- Avoid graph images; describe clearly if needed.".

(** [content?.trim()] in the [catch] of line 76: only a string has a
    [trim] to call. *)
Definition content_trim (content : value) : completion value :=
  match content with
  | VStr s => Normal (VStr (trim s))
  | VUndefined | VNull => Normal VUndefined
  | _ => Throw (TypeError (js "content?.trim is not a function"))
  end.

Definition generateQuestion (subject topic : value) (apiKey : jstr) : M value :=
  s <- lift (ToString subject) ;;
  t <- lift (ToString topic) ;;
  let user := generate_user s t in
  content <- chat (chat_request apiKey (VNum 7 (-1)) generate_system user) ;;
  parsed <-
    match JSON_parse content with
    | Some p => ret p
    | None =>
        q <- lift (content_trim content) ;;
        ret (obj [("question", q)])
    end ;;
  if negb (truthy (opt_get parsed (js "question")))
  then throw (Error (js "No question returned from model."))
  else ret (obj [("question", get parsed (js "question"))]).

(** *** gradeAnswer (lines 81-135) *)

Definition grade_system : jstr :=
  join (js " ")
    (map js
      [ "You are a New Zealand Year 10 Science marker.";
        "Mark using NCEA-style bands (Not Achieved, Achieved, Merit, Excellence) and a score out of 8.";
        "Give specific feedback and an improved model answer appropriate for Year 10.";
        "Stay within the exact subject/topic constraints:";
        "- Physics: Electricity OR Forces & Motion";
        "- Chemistry: Acids & Bases OR Atomic Structure (exclude isotopes)";
        "- Biology: Genetics OR the Human Body (focus on 3 main systems).";
        "Respond ONLY as JSON with fields: grade_band, score, feedback, improved_answer."
      ]).

(** Line 100 holds an en dash, the code unit 8211. *)
Definition grade_user (subject topic question answer : jstr) : jstr :=
  join nl
    [ js "Subject: " ++ subject;
      js "Topic: " ++ topic;
      js "Question: " ++ question;
      js "StudentAnswer: " ++ answer;
      js "Requirements:";
      js "- Grade band must be one of Not Achieved, Achieved, Merit, Excellence.";
      js "- Score is an integer 0" ++ [8211%N] ++ js "8.";
      js "- Feedback should be concise and actionable.";
      js "- Improved answer should fully answer the question at Year 10 E-level." ].

Definition gradeAnswer (subject topic question answer : value) (apiKey : jstr)
  : M value :=
  s <- lift (ToString subject) ;;
  t <- lift (ToString topic) ;;
  q <- lift (ToString question) ;;
  a <- lift (ToString answer) ;;
  let user := grade_user s t q a in
  content <- chat (chat_request apiKey (VNum 3 (-1)) grade_system user) ;;
  parsed <-
    match JSON_parse content with
    | Some p => ret p
    | None => throw (Error (js "Failed to parse grading JSON."))
    end ;;
  if negb (truthy (opt_get parsed (js "grade_band")))
     || is_undefined (opt_get parsed (js "score"))
  then throw (Error (js "Incomplete grading response."))
  else
    ret (obj [ ("grade_band", get parsed (js "grade_band"));
               ("score", get parsed (js "score"));
               ("feedback", or_else (get parsed (js "feedback")) (VStr []));
               ("improved_answer",
                or_else (get parsed (js "improved_answer")) (VStr [])) ]).

(** *** onRequestOptions (lines 137-147) *)

Definition onRequestOptions (ctx : EventContext) : M Response :=
  let origin := getCorsOrigin (request ctx) in
  ret (mkResponse 204
         [ (js "Access-Control-Allow-Origin", origin);
           (js "Access-Control-Allow-Methods", js "POST, OPTIONS");
           (js "Access-Control-Allow-Headers", js "Content-Type, Authorization") ]
         None).

(** *** onRequestPost (lines 149-187) *)

Definition error_body (msg : jstr) : value := obj [("error", VStr msg)].

(** [env.OPENAI_API_KEY] as the value the code tests and passes on. *)
Definition api_key (e : Env) : value :=
  match OPENAI_API_KEY e with
  | Some k => VStr k
  | None => VUndefined
  end.

(** The condition of line 166,
    [!ALLOWED[subject] || !ALLOWED[subject].includes(topic)]: [subject]
    becomes a property key, and a value found on the prototype has no
    [includes] to call. *)
Definition invalid_selection (subject topic : value) : completion bool :=
  match ToString subject with
  | Throw e => Throw e
  | Normal key =>
      match ALLOWED_at key with
      | Missing => Normal true
      | Inherited =>
          Throw (TypeError (js "ALLOWED[subject].includes is not a function"))
      | Own topics => Normal (negb (includes topics topic))
      end
  end.

(** The body of the [try] of lines 170-183. *)
Definition dispatch (origin : jstr) (body action subject topic : value)
           (apiKey : jstr) : M Response :=
  if is_string action "generate" then
    result <- generateQuestion subject topic apiKey ;;
    ret (jsonResponse result 200 origin)
  else if is_string action "grade" then
    let b := or_else body (VObj []) in
    let question := get b (js "question") in
    let answer := get b (js "answer") in
    if negb (truthy question) || negb (truthy answer)
    then ret (jsonResponse (error_body (js "Missing question or answer for grading."))
                           400 origin)
    else
      result <- gradeAnswer subject topic question answer apiKey ;;
      ret (jsonResponse result 200 origin)
  else ret (jsonResponse (error_body (js "Unknown action.")) 400 origin).

(** [e.message || 'Internal error.']. *)
Definition message_or_default (e : JsError) : jstr :=
  match message e with
  | [] => js "Internal error."
  | m => m
  end.

Definition onRequestPost (ctx : EventContext) : M Response :=
  let origin := getCorsOrigin (request ctx) in
  match api_key (env ctx) with
  | VStr (c :: k) =>
      let apiKey := c :: k in
      match JSON.parse (body (request ctx)) with
      | None => ret (jsonResponse (error_body (js "Invalid JSON body.")) 400 origin)
      | Some body =>
          let b := or_else body (VObj []) in
          let action := get b (js "action") in
          let subject := get b (js "subject") in
          let topic := get b (js "topic") in
          if negb (truthy action) || negb (truthy subject) || negb (truthy topic)
          then ret (jsonResponse
                      (error_body (js "Missing required fields: action, subject, topic."))
                      400 origin)
          else
            invalid <- lift (invalid_selection subject topic) ;;
            if (invalid : bool)
            then ret (jsonResponse (error_body (js "Invalid subject/topic selection."))
                                   400 origin)
            else
              try_catch (dispatch origin body action subject topic apiKey)
                (fun e => ret (jsonResponse (error_body (message_or_default e))
                                            500 origin))
      end
  | _ =>
      ret (jsonResponse
             (error_body (js "Server not configured: OPENAI_API_KEY missing."))
             500 origin)
  end.

End ScienceEq.

(* ================================================================== *)
(** ** Vocabulary of the statements *)

Section Vocabulary.

Variable platform : Platform.
Variable fetch : provider_request -> fetch_result.

(** The credential is in the environment. *)
Definition configured (ctx : EventContext) (apiKey : jstr) : Prop :=
  OPENAI_API_KEY (env ctx) = Some apiKey /\ apiKey <> [].

(** The pair is in the allow-list table. *)
Definition valid_pair (subject topic : jstr) : Prop :=
  exists topics, In (subject, topics) ALLOWED /\ In topic topics.

(** The body of the request parses to [b]. *)
Definition body_parses (ctx : EventContext) (b : value) : Prop :=
  JSON.parse (body (request ctx)) = Some b.

(** A generate request for a pair of the table. *)
Definition generate_request (ctx : EventContext) (subject topic : jstr) : Prop :=
  exists b,
    body_parses ctx b
    /\ get b (js "action") = str "generate"
    /\ get b (js "subject") = VStr subject
    /\ get b (js "topic") = VStr topic
    /\ valid_pair subject topic.

(** A grade request for a pair of the table; [question] and [answer] are
    what the body holds under these names, [undefined] when missing. *)
Definition grade_request (ctx : EventContext) (subject topic : jstr)
           (question answer : value) : Prop :=
  exists b,
    body_parses ctx b
    /\ get b (js "action") = str "grade"
    /\ get b (js "subject") = VStr subject
    /\ get b (js "topic") = VStr topic
    /\ valid_pair subject topic
    /\ get b (js "question") = question
    /\ get b (js "answer") = answer.

(** The call [generateQuestion] makes. *)
Definition generate_call (apiKey subject topic : jstr) : provider_request :=
  chat_request apiKey (VNum 7 (-1)) generate_system (generate_user subject topic).

(** The call [gradeAnswer] makes. *)
Definition grade_call (apiKey subject topic question answer : jstr)
  : provider_request :=
  chat_request apiKey (VNum 3 (-1)) grade_system
               (grade_user subject topic question answer).

(** The provider answers [call] with a success status and a body that
    [resp.json()] reads; [content] is the message content the code
    extracts from it. *)
Definition provider_replies (call : provider_request) (content : value) : Prop :=
  exists reply data,
    fetch call = Resolves reply
    /\ ok reply = true
    /\ resp_json reply = Normal data
    /\ reply_content data = content.

(** The response with an error message. *)
Definition error_response (st : N) (msg : string) (origin : jstr) : Response :=
  jsonResponse (error_body (js msg)) st origin.

(** What line 76 leaves in [parsed]: the parsed content, or the trimmed
    text under [question]; a thrown error when the content has no [trim]. *)
Definition parsed_or_fallback (content : value) : completion value :=
  match JSON_parse platform content with
  | Some p => Normal p
  | None =>
      match content_trim content with
      | Normal q => Normal (obj [("question", q)])
      | Throw e => Throw e
      end
  end.

(** The object [gradeAnswer] returns for a complete reply. *)
Definition grading_of (parsed : value) : value :=
  obj [ ("grade_band", get parsed (js "grade_band"));
        ("score", get parsed (js "score"));
        ("feedback", or_else (get parsed (js "feedback")) (VStr []));
        ("improved_answer", or_else (get parsed (js "improved_answer")) (VStr [])) ].

(** A grade request whose question and answer pass line 177 and print as
    [q] and [a] in the prompt. *)
Definition gradable (question answer : value) (q a : jstr) : Prop :=
  truthy question = true /\ truthy answer = true
  /\ ToString platform question = Normal q
  /\ ToString platform answer = Normal a.

End Vocabulary.

(** The messages of the 400 responses, in the order of the source. *)
Definition bad_request_messages : list string :=
  [ "Invalid JSON body.";
    "Missing required fields: action, subject, topic.";
    "Invalid subject/topic selection.";
    "Missing question or answer for grading.";
    "Unknown action." ].

(** [call] is the call of [generateQuestion] or of [gradeAnswer] for a
    pair of the table, with the key [apiKey]. *)
Definition asks_provider (apiKey : jstr) (call : provider_request) : Prop :=
  exists subject topic : jstr,
    valid_pair subject topic
    /\ (call = generate_call apiKey subject topic
        \/ exists question answer : jstr,
             call = grade_call apiKey subject topic question answer).

(** The body of a 200 response: the question of [generateQuestion], or
    the four fields of [gradeAnswer]. *)
Definition success_body (d : value) : Prop :=
  (exists q : value, truthy q = true /\ d = obj [("question", q)])
  \/ (exists parsed : value,
        truthy (get parsed (js "grade_band")) = true
        /\ get parsed (js "score") <> VUndefined
        /\ d = grading_of parsed).

(* ================================================================== *)
(** ** Fixtures of the examples *)

(** A platform to run the examples on.  Its URL parser is the table of
    the Origin values the examples use, the empty string and any other
    value being rejected.  Its number printer is exact on the integers
    below 2^53 written without an exponent; no example prints a number. *)

Definition example_URL_parse (s : jstr) : option URL :=
  if jstr_eqb s (js "http://localhost:3000")
  then Some (mkURL (js "http:") (js "localhost") (js "3000"))
  else if jstr_eqb s (js "http://evil.example")
  then Some (mkURL (js "http:") (js "evil.example") [])
  else None.

Definition print_integer (m e : Z) : jstr :=
  (if (m <? 0)%Z then js "-" else []) ++ decimal (Z.to_N (Z.abs m * 10 ^ e)).

Definition example_platform : Platform :=
  mkPlatform example_URL_parse print_integer eq_refl.

(** A mocked provider: status 200 and a chat completion whose message
    content is [content]. *)
Definition provider_says (content : value) (_ : provider_request) : fetch_result :=
  Resolves
    (mkReply 200
       (Normal (obj [("choices",
                      VArr [obj [("message", obj [("content", content)])]])]))).

(** A mocked provider that answers with a status and an empty object. *)
Definition provider_status (st : N) (_ : provider_request) : fetch_result :=
  Resolves (mkReply st (Normal (VObj []))).

(** A mocked provider whose [fetch] rejects. *)
Definition provider_fails (e : JsError) (_ : provider_request) : fetch_result :=
  Rejects e.

(** A POST from http://localhost:3000 with the credential configured;
    the body is written with apostrophes for double quotes. *)
Definition example_post (body : string) : EventContext :=
  mkContext (mkRequest (Some (js "http://localhost:3000")) (jq body))
            (mkEnv (Some (js "sk-test"))).

Definition generate_body : string :=
  "{'action':'generate','subject':'Physics','topic':'Electricity'}".

Definition grade_body : string :=
  "{'action':'grade','subject':'Physics','topic':'Electricity','question':'What is voltage?','answer':'Energy per unit charge.'}".

Definition example_generate_call : provider_request :=
  generate_call (js "sk-test") (js "Physics") (js "Electricity").

Definition example_grade_call : provider_request :=
  grade_call (js "sk-test") (js "Physics") (js "Electricity")
             (js "What is voltage?") (js "Energy per unit charge.").

(* ================================================================== *)
(** ** Basic facts *)

Lemma jstr_eqb_refl (a : jstr) : jstr_eqb a a = true.
Proof.
  induction a as [|x a IH]; simpl; [reflexivity|].
  now rewrite N.eqb_refl, IH.
Qed.

Lemma jstr_eqb_eq (a b : jstr) : jstr_eqb a b = true <-> a = b.
Proof.
  split.
  - revert b; induction a as [|x a IH]; intros [|y b] H; simpl in H;
      try discriminate; [reflexivity|].
    apply andb_true_iff in H as [Hx Hr].
    apply N.eqb_eq in Hx. apply IH in Hr. now subst.
  - intros ->. apply jstr_eqb_refl.
Qed.

Lemma existsb_jstr_eqb (a : jstr) (l : list jstr) :
  existsb (jstr_eqb a) l = true <-> In a l.
Proof.
  rewrite existsb_exists. split.
  - intros (x & Hin & E). apply jstr_eqb_eq in E. now subst.
  - intros H. exists a. split; [assumption | apply jstr_eqb_refl].
Qed.

Lemma truthy_VStr (s : jstr) : s <> [] -> truthy (VStr s) = true.
Proof. destruct s; [contradiction | reflexivity]. Qed.

Lemma is_undefined_false (v : value) : v <> VUndefined -> is_undefined v = false.
Proof. destruct v; [contradiction | reflexivity ..]. Qed.

Lemma or_else_truthy (a b : value) : truthy a = true -> or_else a b = a.
Proof. unfold or_else. now intros ->. Qed.

Lemma is_string_intro (s : string) : is_string (str s) s = true.
Proof. apply jstr_eqb_refl. Qed.

(** *** The monad *)

Lemma bind_ret_l {A B} (a : A) (f : A -> M B) : bind (ret a) f = f a.
Proof. unfold bind, ret. destruct (f a) as [r log]. reflexivity. Qed.

Lemma bind_lift_normal {A B} (a : A) (f : A -> M B) :
  bind (lift (Normal a)) f = f a.
Proof. apply bind_ret_l. Qed.

Lemma bind_normal {A B} (a : A) (log : list provider_request) (f : A -> M B) :
  bind (Normal a, log) f = (fst (f a), log ++ snd (f a)).
Proof. unfold bind. destruct (f a). reflexivity. Qed.

Lemma try_catch_normal {A} (a : A) (log : list provider_request)
      (h : JsError -> M A) :
  try_catch (Normal a, log) h = (Normal a, log).
Proof. reflexivity. Qed.

Lemma try_catch_throw {A} (e : JsError) (log : list provider_request)
      (h : JsError -> M A) :
  try_catch (Throw e, log) h = (fst (h e), log ++ snd (h e)).
Proof. unfold try_catch. destruct (h e). reflexivity. Qed.

(** A [try] whose handler returns always returns. *)
Lemma try_catch_returns {A} (m : M A) (h : JsError -> A) :
  exists a, try_catch m (fun e => ret (h e)) = (Normal a, snd m).
Proof.
  destruct m as [[a|e] log]; simpl.
  - now exists a.
  - exists (h e). now rewrite app_nil_r.
Qed.

(** *** Headers *)

Lemma jsonResponse_status (d : value) (st : N) (o : jstr) :
  status (jsonResponse d st o) = st.
Proof. reflexivity. Qed.

Lemma jsonResponse_data (d : value) (st : N) (o : jstr) :
  data (jsonResponse d st o) = Some d.
Proof. reflexivity. Qed.

Lemma jsonResponse_allow_origin (d : value) (st : N) (o : jstr) :
  o <> [] ->
  headers_get (js "Access-Control-Allow-Origin") (headers (jsonResponse d st o))
  = Some o.
Proof. destruct o; [contradiction | reflexivity]. Qed.

Lemma jsonResponse_content_type (d : value) (st : N) (o : jstr) :
  headers_get (js "Content-Type") (headers (jsonResponse d st o))
  = Some (js "application/json").
Proof. destruct o; reflexivity. Qed.

(* ================================================================== *)
(** ** Properties of the handlers *)

Section Properties.

Variable platform : Platform.
Variable fetch : provider_request -> fetch_result.

Local Notation "'post'" := (onRequestPost platform fetch).
Local Notation "'cors'" := (getCorsOrigin platform).

(** *** The allow-list *)

Lemma valid_pair_cases (subject topic : jstr) :
  valid_pair subject topic ->
  In (subject, topic)
     [ (js "Physics", js "Electricity"); (js "Physics", js "Forces & Motion");
       (js "Chemistry", js "Acids & Bases"); (js "Chemistry", js "Atomic Structure");
       (js "Biology", js "Genetics");
       (js "Biology", js "Human Body (3 Main Systems)") ].
Proof.
  intros (topics & Hs & Ht).
  unfold ALLOWED in Hs. simpl in Hs.
  destruct Hs as [E|[E|[E|[]]]]; inversion E; subst; clear E;
    simpl in Ht; destruct Ht as [<-|[<-|[]]]; simpl; tauto.
Qed.

Lemma valid_pair_accepted (subject topic : jstr) :
  valid_pair subject topic ->
  invalid_selection platform (VStr subject) (VStr topic) = Normal false.
Proof.
  intros H. apply valid_pair_cases in H. simpl in H.
  repeat (destruct H as [H|H]; [inversion H; subst; reflexivity|]).
  contradiction.
Qed.

Lemma valid_pair_nonempty (subject topic : jstr) :
  valid_pair subject topic -> subject <> [] /\ topic <> [].
Proof.
  intros H. apply valid_pair_cases in H. simpl in H.
  repeat (destruct H as [H|H]; [inversion H; subst; split; discriminate|]).
  contradiction.
Qed.

(** *** getCorsOrigin *)

Lemma allowed_origins_nonempty (o : jstr) : In o allowed_origins -> o <> [].
Proof.
  unfold allowed_origins. simpl.
  intros H. repeat (destruct H as [<-|H]; [discriminate|]). contradiction.
Qed.

Lemma cors_nonempty (r : Request) : cors r <> [].
Proof.
  unfold getCorsOrigin.
  destruct (URL_parse platform _) as [u|]; [|discriminate].
  cbv zeta.
  destruct (existsb (jstr_eqb (base_of u)) allowed_origins) eqn:E; [|discriminate].
  apply existsb_jstr_eqb in E. now apply allowed_origins_nonempty.
Qed.

(** *** Steps of onRequestPost *)

(** Past the four guards of lines 151-168, the response is that of the
    [try] of lines 170-186. *)
Lemma post_dispatches (ctx : EventContext) (apiKey : jstr)
      (b action subject topic : value) :
  configured ctx apiKey ->
  body_parses ctx b ->
  get (or_else b (VObj [])) (js "action") = action ->
  get (or_else b (VObj [])) (js "subject") = subject ->
  get (or_else b (VObj [])) (js "topic") = topic ->
  truthy action = true -> truthy subject = true -> truthy topic = true ->
  invalid_selection platform subject topic = Normal false ->
  post ctx
  = try_catch (dispatch platform fetch (cors (request ctx)) b action subject topic apiKey)
      (fun e => ret (jsonResponse (error_body (message_or_default e)) 500
                                  (cors (request ctx)))).
Proof.
  intros [Hkey Hne] Hb Ha Hs Ht Ta Ts Tt Hv.
  unfold onRequestPost, api_key. rewrite Hkey.
  destruct apiKey as [|c k]; [contradiction|].
  unfold body_parses in Hb. rewrite Hb. cbv zeta.
  rewrite Ha, Hs, Ht, Ta, Ts, Tt, Hv. cbn [negb orb].
  rewrite bind_lift_normal. reflexivity.
Qed.

(** A body that holds a truthy property is itself truthy. *)
Lemma get_truthy_self (b : value) (k : jstr) :
  truthy (get b k) = true -> or_else b (VObj []) = b.
Proof. destruct b; simpl; try discriminate. reflexivity. Qed.

Lemma get_str_self (b : value) (k s : jstr) :
  get b k = VStr s -> s <> [] -> or_else b (VObj []) = b.
Proof.
  intros H Hs. apply get_truthy_self with k. rewrite H. now apply truthy_VStr.
Qed.

(** *** The provider call *)

Lemma chat_replies (call : provider_request) (content : value) :
  provider_replies fetch call content ->
  chat fetch call = (Normal content, [call]).
Proof.
  intros (reply & d & Hf & Hok & Hj & Hc).
  unfold chat, await_fetch. rewrite Hf, bind_normal.
  rewrite Hok. cbn [negb]. rewrite Hj, bind_lift_normal, <- Hc. reflexivity.
Qed.

Lemma chat_not_ok (call : provider_request) (reply : provider_response) :
  fetch call = Resolves reply ->
  ok reply = false ->
  chat fetch call
  = (Throw (Error (js "OpenAI error (" ++ decimal (resp_status reply) ++ js ")")),
     [call]).
Proof.
  intros Hf Hok. unfold chat, await_fetch. rewrite Hf, bind_normal, Hok.
  reflexivity.
Qed.

Lemma chat_rejects (call : provider_request) (e : JsError) :
  fetch call = Rejects e -> chat fetch call = (Throw e, [call]).
Proof. intros Hf. unfold chat, await_fetch. now rewrite Hf. Qed.

(** *** Steps of generateQuestion and gradeAnswer *)

Lemma generateQuestion_chat (subject topic apiKey : jstr) :
  generateQuestion platform fetch (VStr subject) (VStr topic) apiKey
  = (content <- chat fetch (generate_call apiKey subject topic) ;;
     parsed <-
       match JSON_parse platform content with
       | Some p => ret p
       | None =>
           q <- lift (content_trim content) ;;
           ret (obj [("question", q)])
       end ;;
     if negb (truthy (opt_get parsed (js "question")))
     then throw (Error (js "No question returned from model."))
     else ret (obj [("question", get parsed (js "question"))])).
Proof.
  unfold generateQuestion. cbn [ToString]. now rewrite !bind_lift_normal.
Qed.

Lemma gradeAnswer_chat (subject topic : jstr) (question answer : value)
      (q a apiKey : jstr) :
  ToString platform question = Normal q ->
  ToString platform answer = Normal a ->
  gradeAnswer platform fetch (VStr subject) (VStr topic) question answer apiKey
  = (content <- chat fetch (grade_call apiKey subject topic q a) ;;
     parsed <-
       match JSON_parse platform content with
       | Some p => ret p
       | None => throw (Error (js "Failed to parse grading JSON."))
       end ;;
     if negb (truthy (opt_get parsed (js "grade_band")))
        || is_undefined (opt_get parsed (js "score"))
     then throw (Error (js "Incomplete grading response."))
     else
       ret (obj [ ("grade_band", get parsed (js "grade_band"));
                  ("score", get parsed (js "score"));
                  ("feedback", or_else (get parsed (js "feedback")) (VStr []));
                  ("improved_answer",
                   or_else (get parsed (js "improved_answer")) (VStr [])) ])).
Proof.
  intros Hq Ha. unfold gradeAnswer.
  change (ToString platform (VStr subject)) with (Normal subject).
  change (ToString platform (VStr topic)) with (Normal topic).
  rewrite Hq, Ha. now rewrite !bind_lift_normal.
Qed.

(** A generate request of the table, with the credential, is answered by
    the [try] around [generateQuestion]. *)
Lemma post_generate (ctx : EventContext) (apiKey subject topic : jstr) :
  configured ctx apiKey ->
  generate_request ctx subject topic ->
  post ctx
  = try_catch
      (result <- generateQuestion platform fetch (VStr subject) (VStr topic) apiKey ;;
       ret (jsonResponse result 200 (cors (request ctx))))
      (fun e => ret (jsonResponse (error_body (message_or_default e)) 500
                                  (cors (request ctx)))).
Proof.
  intros Hk (b & Hb & Ha & Hs & Ht & Hv).
  destruct (valid_pair_nonempty Hv) as [Hsn Htn].
  assert (Eb : or_else b (VObj []) = b) by (eapply get_str_self; eauto).
  assert (Hd := @post_dispatches ctx apiKey b (str "generate") (VStr subject)
                                (VStr topic) Hk Hb).
  rewrite Eb in Hd.
  rewrite (Hd Ha Hs Ht eq_refl (truthy_VStr Hsn) (truthy_VStr Htn)
              (valid_pair_accepted Hv)).
  unfold dispatch. now rewrite is_string_intro.
Qed.

(** The same for a grade request. *)
Lemma post_grade (ctx : EventContext) (apiKey subject topic : jstr)
      (question answer : value) :
  configured ctx apiKey ->
  grade_request ctx subject topic question answer ->
  post ctx
  = try_catch
      (if negb (truthy question) || negb (truthy answer)
       then ret (error_response 400 "Missing question or answer for grading."
                                (cors (request ctx)))
       else
         result <- gradeAnswer platform fetch (VStr subject) (VStr topic)
                               question answer apiKey ;;
         ret (jsonResponse result 200 (cors (request ctx))))
      (fun e => ret (jsonResponse (error_body (message_or_default e)) 500
                                  (cors (request ctx)))).
Proof.
  intros Hk (b & Hb & Ha & Hs & Ht & Hv & Hq & Han).
  destruct (valid_pair_nonempty Hv) as [Hsn Htn].
  assert (Eb : or_else b (VObj []) = b) by (eapply get_str_self; eauto).
  assert (Hd := @post_dispatches ctx apiKey b (str "grade") (VStr subject)
                                (VStr topic) Hk Hb).
  rewrite Eb in Hd.
  rewrite (Hd Ha Hs Ht eq_refl (truthy_VStr Hsn) (truthy_VStr Htn)
              (valid_pair_accepted Hv)).
  unfold dispatch.
  change (is_string (str "grade") "generate") with false.
  rewrite is_string_intro. cbv zeta. rewrite Eb, Hq, Han. reflexivity.
Qed.

(** *** The generate path, once the provider has replied *)

Lemma post_generate_replied (ctx : EventContext)
      (apiKey subject topic : jstr) (content : value) :
  configured ctx apiKey ->
  generate_request ctx subject topic ->
  provider_replies fetch (generate_call apiKey subject topic) content ->
  post ctx
  = (Normal
       match parsed_or_fallback platform content with
       | Normal parsed =>
           if truthy (get parsed (js "question"))
           then jsonResponse (obj [("question", get parsed (js "question"))]) 200
                             (cors (request ctx))
           else error_response 500 "No question returned from model."
                               (cors (request ctx))
       | Throw e =>
           jsonResponse (error_body (message_or_default e)) 500 (cors (request ctx))
       end,
     [generate_call apiKey subject topic]).
Proof.
  intros Hk Hr Hp.
  rewrite (post_generate Hk Hr), generateQuestion_chat, (chat_replies Hp).
  rewrite bind_normal. unfold parsed_or_fallback, opt_get.
  destruct (JSON_parse platform content) as [p|].
  - rewrite bind_ret_l.
    destruct (truthy (get p (js "question"))); reflexivity.
  - destruct (content_trim content) as [q|e].
    + rewrite bind_lift_normal, bind_ret_l.
      destruct (truthy (get (obj [("question", q)]) (js "question"))); reflexivity.
    + reflexivity.
Qed.

(** C2 (amended).  For a generate request with a subject and topic of the
    table, when the provider replies with a success status and a message
    content that is a string, is not parseable as JSON and is not blank,
    the endpoint takes the trimmed text as the question: status 200 with
    [{question: <trimmed content>}], after one provider call. *)
Theorem generate_falls_back_to_trimmed_text (ctx : EventContext)
        (apiKey subject topic content : jstr) :
  configured ctx apiKey ->
  generate_request ctx subject topic ->
  provider_replies fetch (generate_call apiKey subject topic) (VStr content) ->
  JSON.parse content = None ->
  trim content <> [] ->
  post ctx
  = (Normal (jsonResponse (obj [("question", VStr (trim content))]) 200
                          (cors (request ctx))),
     [generate_call apiKey subject topic]).
Proof.
  intros Hk Hr Hp Hparse Htrim.
  rewrite (post_generate_replied Hk Hr Hp).
  unfold parsed_or_fallback, JSON_parse. cbn [ToString content_trim].
  rewrite Hparse.
  change (get (obj [("question", VStr (trim content))]) (js "question"))
    with (VStr (trim content)).
  now rewrite (truthy_VStr Htrim).
Qed.

(** C10.  The question is tested for truthiness: when the content parses
    to an object whose [question] is the empty string, or when the
    content itself is the empty string (the
    parse fails and the trimmed fallback is empty), [generateQuestion]
    throws "No question returned from model." and the endpoint answers
    500 with that message. *)
Theorem generate_empty_question_is_500 (ctx : EventContext)
        (apiKey subject topic : jstr) (content : value) :
  configured ctx apiKey ->
  generate_request ctx subject topic ->
  provider_replies fetch (generate_call apiKey subject topic) content ->
  JSON_parse platform content = Some (obj [("question", VStr [])])
  \/ content = VStr [] ->
  generateQuestion platform fetch (VStr subject) (VStr topic) apiKey
  = (Throw (Error (js "No question returned from model.")),
     [generate_call apiKey subject topic])
  /\ post ctx
     = (Normal (error_response 500 "No question returned from model."
                               (cors (request ctx))),
        [generate_call apiKey subject topic]).
Proof.
  intros Hk Hr Hp Hc. split.
  - rewrite generateQuestion_chat, (chat_replies Hp), bind_normal.
    destruct Hc as [Hc | ->].
    + rewrite Hc, bind_ret_l. reflexivity.
    + reflexivity.
  - rewrite (post_generate_replied Hk Hr Hp). unfold parsed_or_fallback.
    destruct Hc as [Hc | ->].
    + rewrite Hc. reflexivity.
    + reflexivity.
Qed.

(** *** The grade path, once the provider has replied *)

Lemma post_grade_replied (ctx : EventContext) (apiKey subject topic : jstr)
      (question answer : value) (q a : jstr) (content : value) :
  configured ctx apiKey ->
  grade_request ctx subject topic question answer ->
  gradable platform question answer q a ->
  provider_replies fetch (grade_call apiKey subject topic q a) content ->
  post ctx
  = (Normal
       match JSON_parse platform content with
       | None => error_response 500 "Failed to parse grading JSON."
                                (cors (request ctx))
       | Some parsed =>
           if negb (truthy (get parsed (js "grade_band")))
              || is_undefined (get parsed (js "score"))
           then error_response 500 "Incomplete grading response."
                               (cors (request ctx))
           else jsonResponse (grading_of parsed) 200 (cors (request ctx))
       end,
     [grade_call apiKey subject topic q a]).
Proof.
  intros Hk Hr (Tq & Ta & Hq & Ha) Hp.
  rewrite (post_grade Hk Hr), Tq, Ta. cbn [negb orb].
  rewrite (gradeAnswer_chat _ _ _ _ _ Hq Ha), (chat_replies Hp), bind_normal.
  unfold opt_get.
  destruct (JSON_parse platform content) as [p|]; [|reflexivity].
  rewrite bind_ret_l.
  destruct (negb (truthy (get p (js "grade_band")))
            || is_undefined (get p (js "score"))); reflexivity.
Qed.

(** C3.  For a grade request with a subject and topic of the table and a
    question and answer, when the provider replies with a success status
    and a message content that is not parseable as JSON, the endpoint
    answers 500 with "Failed to parse grading JSON.".  A generate request
    under the same condition takes the fallback instead: its answer is
    built from the trimmed text (200 with it as the question, or "No
    question returned from model." when it is blank), never the parse
    error. *)
Theorem grade_unparseable_content_is_500 (ctx : EventContext)
        (apiKey subject topic : jstr) (question answer : value) (q a : jstr)
        (content : value) :
  configured ctx apiKey ->
  grade_request ctx subject topic question answer ->
  gradable platform question answer q a ->
  provider_replies fetch (grade_call apiKey subject topic q a) content ->
  JSON_parse platform content = None ->
  post ctx
  = (Normal (error_response 500 "Failed to parse grading JSON."
                            (cors (request ctx))),
     [grade_call apiKey subject topic q a])
  /\ forall (ctx' : EventContext) (subject' topic' text : jstr),
       configured ctx' apiKey ->
       generate_request ctx' subject' topic' ->
       provider_replies fetch (generate_call apiKey subject' topic') (VStr text) ->
       JSON.parse text = None ->
       post ctx'
       = (Normal
            (match trim text with
             | [] => error_response 500 "No question returned from model."
                                    (cors (request ctx'))
             | t => jsonResponse (obj [("question", VStr t)]) 200
                                 (cors (request ctx'))
             end),
          [generate_call apiKey subject' topic']).
Proof.
  intros Hk Hr Hg Hp Hparse. split.
  - rewrite (post_grade_replied Hk Hr Hg Hp), Hparse. reflexivity.
  - intros ctx' subject' topic' text Hk' Hr' Hp' Hparse'.
    rewrite (post_generate_replied Hk' Hr' Hp').
    unfold parsed_or_fallback, JSON_parse. cbn [ToString content_trim].
    rewrite Hparse'.
    change (get (obj [("question", VStr (trim text))]) (js "question"))
      with (VStr (trim text)).
    destruct (trim text); reflexivity.
Qed.

(** C4 (amended).  For a grade request whose provider reply parses as
    JSON: if [grade_band] is absent or falsy (the empty string, [0],
    [false], [null]), or [score] is absent, the answer is 500 with
    "Incomplete grading response."; otherwise it is 200 with the four
    fields [grade_band], [score], [feedback], [improved_answer], the last
    two being [parsed.feedback || ''] and [parsed.improved_answer || '']:
    the empty string when absent. *)
Theorem grade_reply_incomplete_or_four_fields (ctx : EventContext)
        (apiKey subject topic : jstr) (question answer : value) (q a : jstr)
        (content parsed : value) :
  configured ctx apiKey ->
  grade_request ctx subject topic question answer ->
  gradable platform question answer q a ->
  provider_replies fetch (grade_call apiKey subject topic q a) content ->
  JSON_parse platform content = Some parsed ->
  (truthy (get parsed (js "grade_band")) = false
   \/ get parsed (js "score") = VUndefined ->
   post ctx
   = (Normal (error_response 500 "Incomplete grading response."
                             (cors (request ctx))),
      [grade_call apiKey subject topic q a]))
  /\ (truthy (get parsed (js "grade_band")) = true ->
      get parsed (js "score") <> VUndefined ->
      post ctx
      = (Normal
           (jsonResponse
              (obj [ ("grade_band", get parsed (js "grade_band"));
                     ("score", get parsed (js "score"));
                     ("feedback", or_else (get parsed (js "feedback")) (VStr []));
                     ("improved_answer",
                      or_else (get parsed (js "improved_answer")) (VStr [])) ])
              200 (cors (request ctx))),
         [grade_call apiKey subject topic q a]))
  /\ (forall k : jstr,
        get parsed k = VUndefined -> or_else (get parsed k) (VStr []) = VStr []).
Proof.
  intros Hk Hr Hg Hp Hparse.
  rewrite (post_grade_replied Hk Hr Hg Hp), Hparse.
  split; [|split].
  - intros [Hb | Hs].
    + now rewrite Hb.
    + rewrite Hs. now rewrite orb_true_r.
  - intros Hb Hs. rewrite Hb. cbn [negb orb].
    now rewrite (is_undefined_false Hs).
  - intros k ->. reflexivity.
Qed.

(** C9.  Presence of [score] is tested with [typeof], presence of
    [grade_band] by truthiness: a reply that parses to
    [{grade_band: "Merit", score: 0}] is accepted, 200 with score [0];
    a reply that parses to an object with [score] 5 and the empty string
    as [grade_band] is rejected, 500
    with "Incomplete grading response.". *)
Theorem grade_score_zero_accepted_empty_band_rejected (ctx : EventContext)
        (apiKey subject topic : jstr) (question answer : value) (q a : jstr)
        (content : value) :
  configured ctx apiKey ->
  grade_request ctx subject topic question answer ->
  gradable platform question answer q a ->
  provider_replies fetch (grade_call apiKey subject topic q a) content ->
  (JSON_parse platform content
   = Some (obj [("grade_band", str "Merit"); ("score", VNum 0 0)]) ->
   post ctx
   = (Normal
        (jsonResponse
           (obj [ ("grade_band", str "Merit"); ("score", VNum 0 0);
                  ("feedback", VStr []); ("improved_answer", VStr []) ])
           200 (cors (request ctx))),
      [grade_call apiKey subject topic q a]))
  /\ (JSON_parse platform content
      = Some (obj [("grade_band", VStr []); ("score", VNum 5 0)]) ->
      post ctx
      = (Normal (error_response 500 "Incomplete grading response."
                                (cors (request ctx))),
         [grade_call apiKey subject topic q a])).
Proof.
  intros Hk Hr Hg Hp.
  rewrite (post_grade_replied Hk Hr Hg Hp).
  split; intros ->; reflexivity.
Qed.

(** C7.  For a grade request with a subject and topic of the table, when
    the body has no [question] or no [answer], the answer is 400 with
    "Missing question or answer for grading." and the provider is not
    called. *)
Theorem grade_missing_question_or_answer_is_400 (ctx : EventContext)
        (apiKey subject topic : jstr) (question answer : value) :
  configured ctx apiKey ->
  grade_request ctx subject topic question answer ->
  question = VUndefined \/ answer = VUndefined ->
  post ctx
  = (Normal (error_response 400 "Missing question or answer for grading."
                            (cors (request ctx))),
     []).
Proof.
  intros Hk Hr Hm. rewrite (post_grade Hk Hr).
  destruct Hm as [-> | ->]; cbn [truthy negb orb].
  - reflexivity.
  - now rewrite orb_true_r.
Qed.

(** C6.  Without the credential in the environment every POST is
    answered 500 with the "Server not configured" error, whatever the
    body: the check comes before the body is parsed and before any field
    is looked at. *)
Theorem missing_credential_is_500 (ctx : EventContext) :
  OPENAI_API_KEY (env ctx) = None ->
  post ctx
  = (Normal (error_response 500 "Server not configured: OPENAI_API_KEY missing."
                            (cors (request ctx))),
     []).
Proof.
  intros H. unfold onRequestPost, api_key. now rewrite H.
Qed.

(** *** Every response of the POST handler is built by jsonResponse *)

Lemma bind_ret_returned {A B} (m : M A) (f : A -> B) (r : B) :
  returned (bind m (fun x => ret (f x))) = Some r -> exists x, r = f x.
Proof.
  destruct m as [[x|e] log]; unfold returned; simpl; [|discriminate].
  intros H. inversion H. now exists x.
Qed.

Lemma dispatch_returned (o : jstr) (b action subject topic : value)
      (apiKey : jstr) (r : Response) :
  returned (dispatch platform fetch o b action subject topic apiKey) = Some r ->
  exists d st, r = jsonResponse d st o.
Proof.
  unfold dispatch.
  destruct (is_string action "generate").
  { intros H. apply bind_ret_returned in H as (x & ->). eauto. }
  destruct (is_string action "grade").
  2:{ unfold returned; simpl. intros H. inversion H. eauto. }
  cbv zeta.
  destruct (negb _ || negb _).
  { unfold returned; simpl. intros H. inversion H. eauto. }
  intros H. apply bind_ret_returned in H as (x & ->). eauto.
Qed.

Lemma post_returned (ctx : EventContext) (r : Response) :
  returned (post ctx) = Some r ->
  exists d st, r = jsonResponse d st (cors (request ctx)).
Proof.
  unfold onRequestPost.
  set (o := cors (request ctx)).
  assert (Hret : forall d st,
             returned (ret (jsonResponse d st o)) = Some r ->
             exists d' st', r = jsonResponse d' st' o).
  { intros d st H. unfold returned in H; simpl in H. inversion H. eauto. }
  destruct (api_key (env ctx)) as [| | | |[|c k]| |]; try apply Hret.
  destruct (JSON.parse (body (request ctx))) as [b|]; [|apply Hret].
  cbv zeta.
  destruct (negb _ || negb _ || negb _); [apply Hret|].
  destruct (invalid_selection platform _ _) as [[|]|e].
  - rewrite bind_lift_normal. apply Hret.
  - rewrite bind_lift_normal.
    destruct (dispatch platform fetch o b _ _ _ (c :: k)) as [[r'|e] log] eqn:D.
    + rewrite try_catch_normal. unfold returned; simpl. intros H; inversion H; subst.
      apply dispatch_returned with (b := b) (action := get (or_else b (VObj [])) (js "action"))
        (subject := get (or_else b (VObj [])) (js "subject"))
        (topic := get (or_else b (VObj [])) (js "topic")) (apiKey := c :: k).
      now rewrite D.
    + rewrite try_catch_throw. unfold returned; simpl. intros H; inversion H. eauto.
  - unfold returned; simpl. discriminate.
Qed.

(** C5.  The Access-Control-Allow-Origin header of every response, of
    OPTIONS and of POST, success or failure, is the value computed from
    the request's Origin header: the canonical https://artinamr.xyz when
    the header is absent or is not a URL; the origin reduced to
    scheme://host[:port], echoed as it is, when that is one of the seven
    origins of the allow-set; the canonical origin otherwise. *)
Theorem cors_origin_on_every_response (ctx : EventContext) :
  (Origin (request ctx) = None -> cors (request ctx) = js "https://artinamr.xyz")
  /\ (forall raw : jstr,
        Origin (request ctx) = Some raw ->
        URL_parse platform raw = None ->
        cors (request ctx) = js "https://artinamr.xyz")
  /\ (forall (raw : jstr) (u : URL) (base : jstr),
        Origin (request ctx) = Some raw ->
        URL_parse platform raw = Some u ->
        base = protocol u ++ js "//" ++ hostname u
               ++ (match port u with [] => [] | p => js ":" ++ p end) ->
        (In base [ js "https://artinamr.xyz";
                   js "http://localhost";
                   js "http://localhost:3000";
                   js "http://127.0.0.1:3000";
                   js "http://127.0.0.1:5500";
                   js "http://127.0.0.1:8788";
                   js "http://localhost:8788" ] ->
         cors (request ctx) = base)
        /\ (~ In base [ js "https://artinamr.xyz";
                        js "http://localhost";
                        js "http://localhost:3000";
                        js "http://127.0.0.1:3000";
                        js "http://127.0.0.1:5500";
                        js "http://127.0.0.1:8788";
                        js "http://localhost:8788" ] ->
            cors (request ctx) = js "https://artinamr.xyz"))
  /\ (exists r : Response,
        onRequestOptions platform ctx = (Normal r, [])
        /\ status r = 204%N
        /\ headers_get (js "Access-Control-Allow-Origin") (headers r)
           = Some (cors (request ctx)))
  /\ (forall r : Response,
        returned (post ctx) = Some r ->
        headers_get (js "Access-Control-Allow-Origin") (headers r)
        = Some (cors (request ctx))).
Proof.
  repeat apply conj.
  - intros H. unfold getCorsOrigin. rewrite H.
    now rewrite (URL_parse_empty platform).
  - intros raw H Hp. unfold getCorsOrigin. rewrite H.
    destruct raw; [now rewrite (URL_parse_empty platform) | now rewrite Hp].
  - intros raw u base H Hp ->.
    destruct raw as [|c o];
      [rewrite (URL_parse_empty platform) in Hp; discriminate|].
    unfold getCorsOrigin. rewrite H, Hp. cbv zeta.
    change (protocol u ++ js "//" ++ hostname u
            ++ match port u with [] => [] | p => js ":" ++ p end)
      with (base_of u).
    change [ js "https://artinamr.xyz"; js "http://localhost";
             js "http://localhost:3000"; js "http://127.0.0.1:3000";
             js "http://127.0.0.1:5500"; js "http://127.0.0.1:8788";
             js "http://localhost:8788" ]
      with allowed_origins.
    split; intros Hin.
    + apply existsb_jstr_eqb in Hin. now rewrite Hin.
    + destruct (existsb (jstr_eqb (base_of u)) allowed_origins) eqn:X;
        [|reflexivity].
      apply existsb_jstr_eqb in X. contradiction.
  - eexists. split; [reflexivity|]. split; reflexivity.
  - intros r H. apply post_returned in H as (d & st & ->).
    apply jsonResponse_allow_origin, cors_nonempty.
Qed.

(** *** Errors of the dispatch *)

Lemma message_or_default_spec (e : JsError) :
  (message e <> [] -> message_or_default e = message e)
  /\ (message e = [] -> message_or_default e = js "Internal error.").
Proof.
  unfold message_or_default. destruct (message e).
  - split; [contradiction | reflexivity].
  - split; [reflexivity | discriminate].
Qed.

Lemma post_generate_chat_throws (ctx : EventContext)
      (apiKey subject topic : jstr) (e : JsError) :
  configured ctx apiKey ->
  generate_request ctx subject topic ->
  chat fetch (generate_call apiKey subject topic)
  = (Throw e, [generate_call apiKey subject topic]) ->
  post ctx
  = (Normal (jsonResponse (error_body (message_or_default e)) 500
                          (cors (request ctx))),
     [generate_call apiKey subject topic]).
Proof.
  intros Hk Hr Hc.
  rewrite (post_generate Hk Hr), generateQuestion_chat, Hc. reflexivity.
Qed.

Lemma post_grade_chat_throws (ctx : EventContext)
      (apiKey subject topic : jstr) (question answer : value) (q a : jstr)
      (e : JsError) :
  configured ctx apiKey ->
  grade_request ctx subject topic question answer ->
  gradable platform question answer q a ->
  chat fetch (grade_call apiKey subject topic q a)
  = (Throw e, [grade_call apiKey subject topic q a]) ->
  post ctx
  = (Normal (jsonResponse (error_body (message_or_default e)) 500
                          (cors (request ctx))),
     [grade_call apiKey subject topic q a]).
Proof.
  intros Hk Hr (Tq & Ta & Hq & Ha) Hc.
  rewrite (post_grade Hk Hr), Tq, Ta. cbn [negb orb].
  rewrite (gradeAnswer_chat _ _ _ _ _ Hq Ha), Hc. reflexivity.
Qed.

(** C8 (amended).  For a POST request that reaches the action dispatch,
    an exception raised there is caught and answered with status 500 and
    the body [{error: m}], [m] being the exception's message, or
    "Internal error." when that message is empty; the handler returns a
    response and throws nothing.  A provider reply with a non-success
    status is such an exception, of message "OpenAI error (<status>)";
    so is a rejected [fetch]. *)
Theorem dispatch_exceptions_are_answered_500 (ctx : EventContext)
        (apiKey : jstr) :
  configured ctx apiKey ->
  (forall b action subject topic : value,
     body_parses ctx b ->
     get (or_else b (VObj [])) (js "action") = action ->
     get (or_else b (VObj [])) (js "subject") = subject ->
     get (or_else b (VObj [])) (js "topic") = topic ->
     truthy action = true -> truthy subject = true -> truthy topic = true ->
     invalid_selection platform subject topic = Normal false ->
     (exists r : Response,
        post ctx
        = (Normal r,
           calls (dispatch platform fetch (cors (request ctx)) b action subject
                           topic apiKey)))
     /\ (forall (e : JsError) (log : list provider_request),
           dispatch platform fetch (cors (request ctx)) b action subject topic apiKey
           = (Throw e, log) ->
           post ctx
           = (Normal (jsonResponse (error_body (message_or_default e)) 500
                                   (cors (request ctx))),
              log)
           /\ (message e <> [] -> message_or_default e = message e)
           /\ (message e = [] -> message_or_default e = js "Internal error.")))
  /\ (forall (subject topic : jstr) (reply : provider_response),
        generate_request ctx subject topic ->
        fetch (generate_call apiKey subject topic) = Resolves reply ->
        ok reply = false ->
        post ctx
        = (Normal (jsonResponse
                     (error_body (js "OpenAI error (" ++ decimal (resp_status reply)
                                  ++ js ")"))
                     500 (cors (request ctx))),
           [generate_call apiKey subject topic]))
  /\ (forall (subject topic : jstr) (question answer : value) (q a : jstr)
             (reply : provider_response),
        grade_request ctx subject topic question answer ->
        gradable platform question answer q a ->
        fetch (grade_call apiKey subject topic q a) = Resolves reply ->
        ok reply = false ->
        post ctx
        = (Normal (jsonResponse
                     (error_body (js "OpenAI error (" ++ decimal (resp_status reply)
                                  ++ js ")"))
                     500 (cors (request ctx))),
           [grade_call apiKey subject topic q a]))
  /\ (forall (subject topic : jstr) (e : JsError),
        generate_request ctx subject topic ->
        fetch (generate_call apiKey subject topic) = Rejects e ->
        post ctx
        = (Normal (jsonResponse (error_body (message_or_default e)) 500
                                (cors (request ctx))),
           [generate_call apiKey subject topic])).
Proof.
  intros Hk. repeat apply conj.
  - intros b action subject topic Hb Ha Hs Ht Ta Ts Tt Hv.
    rewrite (post_dispatches Hk Hb Ha Hs Ht Ta Ts Tt Hv). split.
    + apply try_catch_returns.
    + intros e log ->. split; [|apply message_or_default_spec].
      rewrite try_catch_throw. simpl. now rewrite app_nil_r.
  - intros subject topic reply Hr Hf Hok.
    now rewrite (post_generate_chat_throws Hk Hr (chat_not_ok Hf Hok)).
  - intros subject topic question answer q a reply Hr Hg Hf Hok.
    now rewrite (post_grade_chat_throws Hk Hr Hg (chat_not_ok Hf Hok)).
  - intros subject topic e Hr Hf.
    now rewrite (post_generate_chat_throws Hk Hr (chat_rejects Hf)).
Qed.

(** *** The guard of line 166 *)

Lemma inherited_key_cases (key : jstr) :
  In key Object_prototype_keys ->
  key <> [] /\ ALLOWED_at key = Inherited.
Proof.
  unfold Object_prototype_keys. simpl.
  intros H. repeat (destruct H as [<-|H]; [split; [discriminate|reflexivity]|]).
  contradiction.
Qed.

(** C1, where the code departs from it.  For a POST request whose body
    parses and holds an action, a topic and, as subject, the name of a
    property of [Object.prototype] ("constructor", "toString",
    "__proto__", ...), the lookup [ALLOWED[subject]] finds the inherited
    property, [.includes] is not a function, and the handler throws a
    TypeError outside its [try]: no 400 response is returned. *)
Theorem inherited_subject_escapes_the_guard (ctx : EventContext)
        (apiKey : jstr) (b : value) (key : jstr) :
  configured ctx apiKey ->
  body_parses ctx b ->
  truthy (get b (js "action")) = true ->
  get b (js "subject") = VStr key ->
  truthy (get b (js "topic")) = true ->
  In key Object_prototype_keys ->
  post ctx
  = (Throw (TypeError (js "ALLOWED[subject].includes is not a function")), [])
  /\ returned (post ctx) = None.
Proof.
  intros [Hkey Hne] Hb Ta Hs Tt Hin.
  destruct (inherited_key_cases Hin) as [Hk Hat].
  assert (E : post ctx
              = (Throw (TypeError (js "ALLOWED[subject].includes is not a function")),
                 [])).
  { unfold onRequestPost, api_key. rewrite Hkey.
    destruct apiKey as [|c k]; [contradiction|].
    unfold body_parses in Hb. rewrite Hb. cbv zeta.
    rewrite (@get_truthy_self b (js "action") Ta), Ta, Tt, Hs, (truthy_VStr Hk).
    cbn [negb orb].
    unfold invalid_selection. cbn [ToString]. rewrite Hat. reflexivity. }
  split; [assumption | now rewrite E].
Qed.

Lemma own_topics_In (key : jstr) (table : list (jstr * list jstr))
      (ts : list jstr) :
  own_topics key table = Some ts -> In (key, ts) table.
Proof.
  induction table as [|[k t] r IH]; simpl; [discriminate|].
  destruct (jstr_eqb key k) eqn:E.
  - intros H. inversion H; subst. apply jstr_eqb_eq in E. subst. now left.
  - intros H. right. now apply IH.
Qed.

(** C1, where the code does what it says.  When the subject is a string
    that names no property of [Object.prototype], a pair outside the table
    is answered 400 with "Invalid subject/topic selection." and the
    provider is not called. *)
Lemma invalid_pair_is_400 (ctx : EventContext) (apiKey : jstr) (b : value)
      (subject : jstr) :
  configured ctx apiKey ->
  body_parses ctx b ->
  truthy (get b (js "action")) = true ->
  get b (js "subject") = VStr subject ->
  subject <> [] ->
  truthy (get b (js "topic")) = true ->
  ~ In subject Object_prototype_keys ->
  (forall topic : jstr,
     get b (js "topic") = VStr topic -> ~ valid_pair subject topic) ->
  post ctx
  = (Normal (error_response 400 "Invalid subject/topic selection."
                            (cors (request ctx))),
     []).
Proof.
  intros [Hkey Hne] Hb Ta Hs Hsn Tt Hproto Hpair.
  unfold onRequestPost, api_key. rewrite Hkey.
  destruct apiKey as [|c k]; [contradiction|].
  unfold body_parses in Hb. rewrite Hb. cbv zeta.
  rewrite (@get_truthy_self b (js "action") Ta), Ta, Tt, Hs, (truthy_VStr Hsn).
  cbn [negb orb].
  assert (Hinv : invalid_selection platform (VStr subject) (get b (js "topic"))
                 = Normal true).
  { unfold invalid_selection, ALLOWED_at. cbn [ToString].
    destruct (own_topics subject ALLOWED) as [ts|] eqn:Eo.
    - apply own_topics_In in Eo.
      destruct (get b (js "topic")) as [| | | |t| |] eqn:Et; try reflexivity.
      cbn [includes].
      destruct (existsb (jstr_eqb t) ts) eqn:Ex; [|reflexivity].
      apply existsb_jstr_eqb in Ex.
      exfalso. apply (Hpair t eq_refl). exists ts. now split.
    - destruct (existsb (jstr_eqb subject) Object_prototype_keys) eqn:Ex;
        [|reflexivity].
      apply existsb_jstr_eqb in Ex. contradiction. }
  rewrite Hinv, bind_lift_normal. reflexivity.
Qed.

End Properties.

(* ================================================================== *)
(** ** The handlers on concrete requests *)

Lemma example_configured (body : string) :
  configured (example_post body) (js "sk-test").
Proof. split; [reflexivity | discriminate]. Defined.

Lemma example_valid_pair : valid_pair (js "Physics") (js "Electricity").
Proof.
  exists [js "Electricity"; js "Forces & Motion"].
  split; left; reflexivity.
Defined.

Lemma example_generate_request :
  generate_request (example_post generate_body) (js "Physics") (js "Electricity").
Proof.
  eexists. split; [reflexivity|].
  repeat (split; [reflexivity|]). exact example_valid_pair.
Defined.

Lemma example_grade_request :
  grade_request (example_post grade_body) (js "Physics") (js "Electricity")
                (str "What is voltage?") (str "Energy per unit charge.").
Proof.
  eexists. split; [reflexivity|].
  repeat (split; [reflexivity|]).
  split; [exact example_valid_pair|]. split; reflexivity.
Defined.

Lemma example_gradable :
  gradable example_platform (str "What is voltage?") (str "Energy per unit charge.")
           (js "What is voltage?") (js "Energy per unit charge.").
Proof. repeat split. Defined.

Lemma provider_says_replies (content : value) (call : provider_request) :
  truthy content = true ->
  provider_replies (provider_says content) call content.
Proof.
  intros H. eexists. eexists.
  split; [reflexivity|]. split; [reflexivity|]. split; [reflexivity|].
  unfold reply_content. now apply or_else_truthy.
Defined.

(** *** Generate *)

(** C2, the example of the specification: the mocked content
    "What is voltage?" is not JSON and comes back as the question. *)
Lemma generate_what_is_voltage :
  JSON.parse (js "What is voltage?") = None
  /\ onRequestPost example_platform (provider_says (str "What is voltage?"))
                   (example_post generate_body)
     = (Normal (jsonResponse (obj [("question", str "What is voltage?")]) 200
                             (js "http://localhost:3000")),
        [example_generate_call]).
Proof.
  split; [reflexivity|].
  apply (@generate_falls_back_to_trimmed_text example_platform
           (provider_says (str "What is voltage?"))
           (example_post generate_body)
           (js "sk-test") (js "Physics") (js "Electricity")
           (js "What is voltage?")).
  - apply example_configured.
  - exact example_generate_request.
  - apply provider_says_replies. reflexivity.
  - reflexivity.
  - discriminate.
Defined.

(** C2 as stated fails on a blank content: " " is not parseable as JSON,
    the provider replied with success, and the answer is 500, not 200. *)
Lemma generate_blank_content_is_500 :
  JSON.parse (js " ") = None
  /\ provider_replies (provider_says (str " ")) example_generate_call (str " ")
  /\ onRequestPost example_platform (provider_says (str " "))
                   (example_post generate_body)
     = (Normal (error_response 500 "No question returned from model."
                               (js "http://localhost:3000")),
        [example_generate_call])
  /\ status (error_response 500 "No question returned from model."
                            (js "http://localhost:3000")) <> 200%N.
Proof.
  split; [reflexivity|].
  split; [apply provider_says_replies; reflexivity|].
  split; [reflexivity|]. discriminate.
Qed.

(** C10 on the two contents it names: a JSON object whose [question] is
    the empty string, and the empty string. *)
Lemma generate_empty_question_examples :
  onRequestPost example_platform (provider_says (VStr (jq "{'question': ''}")))
                (example_post generate_body)
  = (Normal (error_response 500 "No question returned from model."
                            (js "http://localhost:3000")),
     [example_generate_call])
  /\ onRequestPost example_platform (provider_says (VStr []))
                   (example_post generate_body)
     = (Normal (error_response 500 "No question returned from model."
                               (js "http://localhost:3000")),
        [example_generate_call]).
Proof.
  split.
  - apply (@generate_empty_question_is_500 example_platform
             (provider_says (VStr (jq "{'question': ''}")))
             (example_post generate_body)
             (js "sk-test") (js "Physics") (js "Electricity")
             (VStr (jq "{'question': ''}"))).
    + apply example_configured.
    + exact example_generate_request.
    + apply provider_says_replies. reflexivity.
    + left. reflexivity.
  - apply (@generate_empty_question_is_500 example_platform
             (provider_says (VStr []))
             (example_post generate_body)
             (js "sk-test") (js "Physics") (js "Electricity") (VStr [])).
    + apply example_configured.
    + exact example_generate_request.
    + eexists. eexists. repeat split.
    + right. reflexivity.
Defined.

(** *** Grade *)

(** C3 on a content that is not JSON. *)
Lemma grade_malformed_reply_example :
  JSON.parse (jq "{'grade_band':") = None
  /\ onRequestPost example_platform (provider_says (VStr (jq "{'grade_band':")))
                   (example_post grade_body)
     = (Normal (error_response 500 "Failed to parse grading JSON."
                               (js "http://localhost:3000")),
        [example_grade_call]).
Proof.
  split; [reflexivity|].
  apply (@grade_unparseable_content_is_500 example_platform
           (provider_says (VStr (jq "{'grade_band':")))
           (example_post grade_body)
           (js "sk-test") (js "Physics") (js "Electricity")
           (str "What is voltage?") (str "Energy per unit charge.")
           (js "What is voltage?") (js "Energy per unit charge.")
           (VStr (jq "{'grade_band':"))).
  - apply example_configured.
  - exact example_grade_request.
  - exact example_gradable.
  - apply provider_says_replies. reflexivity.
  - reflexivity.
Defined.

(** C4, the example of the specification: [{"grade_band":"Merit"}] has
    no score. *)
Lemma grade_without_score_example :
  onRequestPost example_platform (provider_says (VStr (jq "{'grade_band':'Merit'}")))
                (example_post grade_body)
  = (Normal (error_response 500 "Incomplete grading response."
                            (js "http://localhost:3000")),
     [example_grade_call]).
Proof.
  apply (@grade_reply_incomplete_or_four_fields example_platform
           (provider_says (VStr (jq "{'grade_band':'Merit'}")))
           (example_post grade_body)
           (js "sk-test") (js "Physics") (js "Electricity")
           (str "What is voltage?") (str "Energy per unit charge.")
           (js "What is voltage?") (js "Energy per unit charge.")
           (VStr (jq "{'grade_band':'Merit'}"))
           (obj [("grade_band", str "Merit")])).
  - apply example_configured.
  - exact example_grade_request.
  - exact example_gradable.
  - apply provider_says_replies. reflexivity.
  - reflexivity.
  - right. reflexivity.
Defined.

(** C4 as stated fails on a reply with [score] 5 and the empty string as
    [grade_band]: the reply parses, both [grade_band] and [score] are in
    the parsed object, and the answer is 500, not 200. *)
Lemma grade_empty_band_is_500 :
  JSON.parse (jq "{'grade_band':'','score':5}")
  = Some (obj [("grade_band", VStr []); ("score", VNum 5 0)])
  /\ lookup (js "grade_band") [(js "grade_band", VStr []); (js "score", VNum 5 0)]
     = Some (VStr [])
  /\ lookup (js "score") [(js "grade_band", VStr []); (js "score", VNum 5 0)]
     = Some (VNum 5 0)
  /\ provider_replies (provider_says (VStr (jq "{'grade_band':'','score':5}")))
                      example_grade_call
                      (VStr (jq "{'grade_band':'','score':5}"))
  /\ onRequestPost example_platform
                   (provider_says (VStr (jq "{'grade_band':'','score':5}")))
                   (example_post grade_body)
     = (Normal (error_response 500 "Incomplete grading response."
                               (js "http://localhost:3000")),
        [example_grade_call])
  /\ status (error_response 500 "Incomplete grading response."
                            (js "http://localhost:3000")) <> 200%N.
Proof.
  repeat (split; [reflexivity|]).
  split; [apply provider_says_replies; reflexivity|].
  split; [reflexivity|]. discriminate.
Qed.

(** C9 on the two replies it names. *)
Lemma grade_truthiness_examples :
  onRequestPost example_platform
                (provider_says (VStr (jq "{'grade_band':'Merit','score':0}")))
                (example_post grade_body)
  = (Normal
       (jsonResponse
          (obj [ ("grade_band", str "Merit"); ("score", VNum 0 0);
                 ("feedback", VStr []); ("improved_answer", VStr []) ])
          200 (js "http://localhost:3000")),
     [example_grade_call])
  /\ onRequestPost example_platform
                   (provider_says (VStr (jq "{'grade_band':'','score':5}")))
                   (example_post grade_body)
     = (Normal (error_response 500 "Incomplete grading response."
                               (js "http://localhost:3000")),
        [example_grade_call]).
Proof.
  split.
  - apply (@grade_score_zero_accepted_empty_band_rejected example_platform
             (provider_says (VStr (jq "{'grade_band':'Merit','score':0}")))
             (example_post grade_body)
             (js "sk-test") (js "Physics") (js "Electricity")
             (str "What is voltage?") (str "Energy per unit charge.")
             (js "What is voltage?") (js "Energy per unit charge.")
             (VStr (jq "{'grade_band':'Merit','score':0}"))).
    + apply example_configured.
    + exact example_grade_request.
    + exact example_gradable.
    + apply provider_says_replies. reflexivity.
    + reflexivity.
  - apply (@grade_score_zero_accepted_empty_band_rejected example_platform
             (provider_says (VStr (jq "{'grade_band':'','score':5}")))
             (example_post grade_body)
             (js "sk-test") (js "Physics") (js "Electricity")
             (str "What is voltage?") (str "Energy per unit charge.")
             (js "What is voltage?") (js "Energy per unit charge.")
             (VStr (jq "{'grade_band':'','score':5}"))).
    + apply example_configured.
    + exact example_grade_request.
    + exact example_gradable.
    + apply provider_says_replies. reflexivity.
    + reflexivity.
Defined.

(** C7, the example of the specification: a grade request without
    [answer], everything else valid. *)
Lemma grade_without_answer_example :
  onRequestPost example_platform (provider_says (str "unused"))
    (example_post
       "{'action':'grade','subject':'Physics','topic':'Electricity','question':'What is voltage?'}")
  = (Normal (error_response 400 "Missing question or answer for grading."
                            (js "http://localhost:3000")),
     []).
Proof.
  apply (@grade_missing_question_or_answer_is_400 example_platform
           (provider_says (str "unused"))
           (example_post
              "{'action':'grade','subject':'Physics','topic':'Electricity','question':'What is voltage?'}")
           (js "sk-test") (js "Physics") (js "Electricity")
           (str "What is voltage?") VUndefined).
  - apply example_configured.
  - eexists. split; [reflexivity|].
    repeat (split; [reflexivity|]).
    split; [exact example_valid_pair|]. split; reflexivity.
  - right. reflexivity.
Defined.

(** *** The credential *)

(** C6 on a body that is not JSON and on an empty body: the answer is the
    500 of the missing credential, not the 400 of the body. *)
Lemma missing_credential_examples :
  JSON.parse (js "{not json") = None
  /\ onRequestPost example_platform (provider_says (str "unused"))
       (mkContext (mkRequest None (js "{not json")) (mkEnv None))
     = (Normal (error_response 500 "Server not configured: OPENAI_API_KEY missing."
                               (js "https://artinamr.xyz")),
        [])
  /\ onRequestPost example_platform (provider_says (str "unused"))
       (mkContext (mkRequest None []) (mkEnv None))
     = (Normal (error_response 500 "Server not configured: OPENAI_API_KEY missing."
                               (js "https://artinamr.xyz")),
        []).
Proof.
  split; [reflexivity|]. split.
  - apply (@missing_credential_is_500 example_platform
             (provider_says (str "unused"))
             (mkContext (mkRequest None (js "{not json")) (mkEnv None))).
    reflexivity.
  - apply (@missing_credential_is_500 example_platform
             (provider_says (str "unused"))
             (mkContext (mkRequest None []) (mkEnv None))).
    reflexivity.
Defined.

(** *** Errors of the dispatch *)

(** C8 on a provider that answers 503. *)
Lemma provider_503_example :
  onRequestPost example_platform (provider_status 503) (example_post generate_body)
  = (Normal (error_response 500 "OpenAI error (503)" (js "http://localhost:3000")),
     [example_generate_call]).
Proof.
  exact (proj1 (proj2 (@dispatch_exceptions_are_answered_500 example_platform
                         (provider_status 503) (example_post generate_body)
                         (js "sk-test") (example_configured generate_body)))
               (js "Physics") (js "Electricity") (mkReply 503 (Normal (VObj [])))
               example_generate_request eq_refl eq_refl).
Defined.

(** C8 as stated fails on an exception whose message is empty: the body
    of the 500 response holds "Internal error.", not the message. *)
Lemma empty_message_is_internal_error :
  message (Error []) = []
  /\ onRequestPost example_platform (provider_fails (Error []))
                   (example_post generate_body)
     = (Normal (jsonResponse (error_body (js "Internal error.")) 500
                             (js "http://localhost:3000")),
        [example_generate_call])
  /\ error_body (js "Internal error.") <> error_body (message (Error [])).
Proof.
  split; [reflexivity|]. split; [reflexivity|]. discriminate.
Qed.

(** *** The guard of the allow-list *)

(** C1 on the subject "constructor": the handler throws, it returns no
    response. *)
Lemma constructor_subject_example :
  ~ valid_pair (js "constructor") (js "Electricity")
  /\ onRequestPost example_platform (provider_says (str "unused"))
       (example_post
          "{'action':'generate','subject':'constructor','topic':'Electricity'}")
     = (Throw (TypeError (js "ALLOWED[subject].includes is not a function")), []).
Proof.
  split.
  - intros H. apply valid_pair_cases in H. simpl in H.
    repeat (destruct H as [H|H]; [discriminate H|]). exact H.
  - apply (@inherited_subject_escapes_the_guard example_platform
             (provider_says (str "unused"))
             (example_post
                "{'action':'generate','subject':'constructor','topic':'Electricity'}")
             (js "sk-test")
             (obj [ ("action", str "generate"); ("subject", str "constructor");
                    ("topic", str "Electricity") ])
             (js "constructor")).
    + apply example_configured.
    + reflexivity.
    + reflexivity.
    + reflexivity.
    + reflexivity.
    + left. reflexivity.
Defined.

(** A subject that is not a string is looked up by what it prints as:
    the array holding "Physics" passes the guard of line 166 and
    reaches the provider, whose prompt names the subject Physics. *)
Example array_subject_passes_the_guard :
  onRequestPost example_platform (provider_says (VStr (jq "{'question':'Q'}")))
    (example_post
       "{'action':'generate','subject':['Physics'],'topic':'Electricity'}")
  = (Normal (jsonResponse (obj [("question", str "Q")]) 200
                          (js "http://localhost:3000")),
     [example_generate_call]).
Proof. reflexivity. Qed.

(** *** CORS, the examples of the specification *)

(** C5 on the two origins of the specification: http://localhost:3000 is
    in the allow-set and is echoed, on OPTIONS and on POST;
    http://evil.example is not, and gets the canonical origin. *)
Lemma cors_origin_examples :
  getCorsOrigin example_platform
    (mkRequest (Some (js "http://localhost:3000")) (jq generate_body))
  = js "http://localhost:3000"
  /\ getCorsOrigin example_platform (mkRequest (Some (js "http://evil.example")) [])
     = js "https://artinamr.xyz"
  /\ getCorsOrigin example_platform (mkRequest None []) = js "https://artinamr.xyz"
  /\ headers_get (js "Access-Control-Allow-Origin")
       (headers (jsonResponse (obj [("question", str "Q")]) 200
                              (js "http://localhost:3000")))
     = Some (js "http://localhost:3000").
Proof.
  split; [|split; [|split]].
  - apply (proj1 (proj2 (proj2
             (@cors_origin_on_every_response example_platform
                (provider_says (VStr (jq "{'question':'Q'}")))
                (example_post generate_body))))
           (js "http://localhost:3000")
           (mkURL (js "http:") (js "localhost") (js "3000"))
           (js "http://localhost:3000") eq_refl eq_refl eq_refl).
    right. right. left. reflexivity.
  - apply (proj1 (proj2 (proj2
             (@cors_origin_on_every_response example_platform
                (provider_says (str "unused"))
                (mkContext (mkRequest (Some (js "http://evil.example")) [])
                           (mkEnv None)))))
           (js "http://evil.example")
           (mkURL (js "http:") (js "evil.example") [])
           (js "http://evil.example") eq_refl eq_refl eq_refl).
    intros H. simpl in H.
    repeat (destruct H as [H|H]; [discriminate H|]). exact H.
  - apply (proj1 (@cors_origin_on_every_response example_platform
                    (provider_says (str "unused"))
                    (mkContext (mkRequest None []) (mkEnv None)))).
    reflexivity.
  - apply (proj2 (proj2 (proj2 (proj2
             (@cors_origin_on_every_response example_platform
                (provider_says (VStr (jq "{'question':'Q'}")))
                (example_post generate_body)))))
           (jsonResponse (obj [("question", str "Q")]) 200
                         (js "http://localhost:3000"))).
    reflexivity.
Defined.

Example options_from_localhost_3000 :
  onRequestOptions example_platform
    (mkContext (mkRequest (Some (js "http://localhost:3000")) []) (mkEnv None))
  = (Normal
       (mkResponse 204
          [ (js "Access-Control-Allow-Origin", js "http://localhost:3000");
            (js "Access-Control-Allow-Methods", js "POST, OPTIONS");
            (js "Access-Control-Allow-Headers", js "Content-Type, Authorization") ]
          None),
     []).
Proof. reflexivity. Qed.

Example options_from_evil_example :
  onRequestOptions example_platform
    (mkContext (mkRequest (Some (js "http://evil.example")) []) (mkEnv None))
  = (Normal
       (mkResponse 204
          [ (js "Access-Control-Allow-Origin", js "https://artinamr.xyz");
            (js "Access-Control-Allow-Methods", js "POST, OPTIONS");
            (js "Access-Control-Allow-Headers", js "Content-Type, Authorization") ]
          None),
     []).
Proof. reflexivity. Qed.

(** The six pairs of the table, with a provider that answers
    [{"question":"Q"}]. *)
Example generate_on_the_six_pairs :
  forallb
    (fun '(subject, topic) =>
       match
         onRequestPost example_platform (provider_says (VStr (jq "{'question':'Q'}")))
           (mkContext
              (mkRequest None
                 (jq "{'action':'generate','subject':'" ++ js subject
                  ++ jq "','topic':'" ++ js topic ++ jq "'}"))
              (mkEnv (Some (js "sk-test"))))
       with
       | (Normal r, [_]) =>
           N.eqb (status r) 200
           && match data r with
              | Some (VObj [(k, VStr q)]) =>
                  jstr_eqb k (js "question") && jstr_eqb q (js "Q")
              | _ => false
              end
       | _ => false
       end)
    [ ("Physics", "Electricity"); ("Physics", "Forces & Motion");
      ("Chemistry", "Acids & Bases"); ("Chemistry", "Atomic Structure");
      ("Biology", "Genetics"); ("Biology", "Human Body (3 Main Systems)") ]
  = true.
Proof. reflexivity. Qed.

(* ================================================================== *)
(** ** Further properties of the handlers *)

Section Coverage.

Variable platform : Platform.
Variable fetch : provider_request -> fetch_result.

Local Notation "'post'" := (onRequestPost platform fetch).
Local Notation "'cors'" := (getCorsOrigin platform).

(** *** The guard of line 166, on every value *)

Lemma own_topics_unique (key : jstr) (ts : list jstr) :
  In (key, ts) ALLOWED -> own_topics key ALLOWED = Some ts.
Proof.
  unfold ALLOWED. simpl.
  intros H. repeat (destruct H as [H|H]; [inversion H; subst; reflexivity|]).
  contradiction.
Qed.

(** What passes the guard prints as a subject of the table, with one of
    its topics as a string. *)
Lemma selection_accepted (subject topic : value) :
  invalid_selection platform subject topic = Normal false ->
  exists s t : jstr,
    ToString platform subject = Normal s /\ topic = VStr t /\ valid_pair s t.
Proof.
  unfold invalid_selection, ALLOWED_at.
  destruct (ToString platform subject) as [s|e]; [|discriminate].
  destruct (own_topics s ALLOWED) as [ts|] eqn:Eo.
  - apply own_topics_In in Eo.
    destruct topic as [| | | |t| |]; cbn [includes negb]; try discriminate.
    destruct (existsb (jstr_eqb t) ts) eqn:Ex; cbn [negb]; [|discriminate].
    apply existsb_jstr_eqb in Ex. intros _.
    exists s, t. repeat split. now exists ts.
  - destruct (existsb _ Object_prototype_keys); discriminate.
Qed.

(** *** What the two actions can end in *)

Lemma message_or_default_nonempty (e : JsError) : message_or_default e <> [].
Proof. unfold message_or_default. destruct (message e); discriminate. Qed.

(** [chat] makes its call, whatever comes back. *)
Lemma chat_outcome (call : provider_request) :
  exists c : completion value, chat fetch call = (c, [call]).
Proof.
  unfold chat, await_fetch. destruct (fetch call) as [e|r].
  - eexists. reflexivity.
  - rewrite bind_normal. destruct (ok r); cbn [negb].
    + destruct (resp_json r); eexists; reflexivity.
    + eexists. reflexivity.
Qed.

Lemma generateQuestion_outcome (subject topic : value) (s t apiKey : jstr) :
  ToString platform subject = Normal s ->
  ToString platform topic = Normal t ->
  (exists e : JsError,
     generateQuestion platform fetch subject topic apiKey
     = (Throw e, [generate_call apiKey s t]))
  \/ (exists q : value,
        truthy q = true
        /\ generateQuestion platform fetch subject topic apiKey
           = (Normal (obj [("question", q)]), [generate_call apiKey s t])).
Proof.
  intros Hs Ht. unfold generateQuestion.
  rewrite Hs, Ht, !bind_lift_normal.
  fold (generate_call apiKey s t).
  destruct (chat_outcome (generate_call apiKey s t)) as [[content|e] Hc];
    rewrite Hc; [|left; eexists; reflexivity].
  rewrite bind_normal. unfold opt_get.
  destruct (JSON_parse platform content) as [p|].
  - rewrite bind_ret_l.
    destruct (truthy (get p (js "question"))) eqn:Tq; cbn [negb fst snd].
    + right. exists (get p (js "question")). split; [assumption | reflexivity].
    + left. eexists. reflexivity.
  - destruct (content_trim content) as [q|e].
    + rewrite bind_lift_normal, bind_ret_l.
      change (get (obj [("question", q)]) (js "question")) with q.
      destruct (truthy q) eqn:Tq; cbn [negb fst snd].
      * right. exists q. split; [assumption | reflexivity].
      * left. eexists. reflexivity.
    + left. eexists. reflexivity.
Qed.

Lemma gradeAnswer_outcome (subject topic question answer : value)
      (s t apiKey : jstr) :
  ToString platform subject = Normal s ->
  ToString platform topic = Normal t ->
  (exists e : JsError,
     gradeAnswer platform fetch subject topic question answer apiKey = (Throw e, []))
  \/ (exists q a : jstr,
        (exists e : JsError,
           gradeAnswer platform fetch subject topic question answer apiKey
           = (Throw e, [grade_call apiKey s t q a]))
        \/ (exists parsed : value,
              truthy (get parsed (js "grade_band")) = true
              /\ get parsed (js "score") <> VUndefined
              /\ gradeAnswer platform fetch subject topic question answer apiKey
                 = (Normal (grading_of parsed), [grade_call apiKey s t q a]))).
Proof.
  intros Hs Ht. unfold gradeAnswer.
  rewrite Hs, Ht, !bind_lift_normal.
  destruct (ToString platform question) as [q|e]; [|left; eexists; reflexivity].
  rewrite bind_lift_normal.
  destruct (ToString platform answer) as [a|e]; [|left; eexists; reflexivity].
  rewrite bind_lift_normal. right. exists q, a.
  fold (grade_call apiKey s t q a).
  destruct (chat_outcome (grade_call apiKey s t q a)) as [[content|e] Hc];
    rewrite Hc; [|left; eexists; reflexivity].
  rewrite bind_normal. unfold opt_get.
  destruct (JSON_parse platform content) as [p|]; [|left; eexists; reflexivity].
  rewrite bind_ret_l.
  destruct (truthy (get p (js "grade_band"))) eqn:Tb; cbn [negb orb];
    [|left; eexists; reflexivity].
  destruct (get p (js "score")) eqn:Sc; cbn [is_undefined fst snd];
    try (right; exists p; rewrite Tb;
         split; [reflexivity|];
         split; [rewrite Sc; discriminate|];
         unfold grading_of; rewrite Sc; reflexivity).
  left. eexists. reflexivity.
Qed.

(** *** Every way a POST can end *)

Lemma post_outcome (ctx : EventContext) :
  ((forall k : jstr, ~ configured ctx k)
   /\ post ctx
      = (Normal (error_response 500 "Server not configured: OPENAI_API_KEY missing."
                                (cors (request ctx))),
         []))
  \/ exists k : jstr,
       configured ctx k
       /\ ((exists msg : string,
              In msg bad_request_messages
              /\ post ctx = (Normal (error_response 400 msg (cors (request ctx))), []))
           \/ (exists (e : JsError) (b : value),
                 body_parses ctx b
                 /\ invalid_selection platform
                      (get (or_else b (VObj [])) (js "subject"))
                      (get (or_else b (VObj [])) (js "topic")) = Throw e
                 /\ post ctx = (Throw e, []))
           \/ (exists m : jstr,
                 m <> []
                 /\ post ctx
                    = (Normal (jsonResponse (error_body m) 500 (cors (request ctx))),
                       []))
           \/ (exists call : provider_request,
                 asks_provider k call
                 /\ ((exists m : jstr,
                        m <> []
                        /\ post ctx
                           = (Normal (jsonResponse (error_body m) 500
                                                   (cors (request ctx))),
                              [call]))
                     \/ (exists d : value,
                           success_body d
                           /\ post ctx
                              = (Normal (jsonResponse d 200 (cors (request ctx))),
                                 [call]))))).
Proof.
  unfold onRequestPost, api_key.
  set (o := cors (request ctx)).
  destruct (OPENAI_API_KEY (env ctx)) as [[|c k]|] eqn:Ek.
  - left. split; [|reflexivity].
    intros k [Hk Hne]. rewrite Ek in Hk. inversion Hk; subst. now apply Hne.
  - right. exists (c :: k). split; [split; [assumption | discriminate]|].
    destruct (JSON.parse (body (request ctx))) as [b|] eqn:Ep.
    2:{ left. exists "Invalid JSON body.". split; [simpl; tauto | reflexivity]. }
    cbv zeta.
    set (B := or_else b (VObj [])).
    destruct (negb (truthy (get B (js "action")))
              || negb (truthy (get B (js "subject")))
              || negb (truthy (get B (js "topic")))).
    { left. exists "Missing required fields: action, subject, topic.".
      split; [simpl; tauto | reflexivity]. }
    destruct (invalid_selection platform (get B (js "subject")) (get B (js "topic")))
      as [[|]|e] eqn:Ei.
    + rewrite bind_lift_normal. left.
      exists "Invalid subject/topic selection.". split; [simpl; tauto | reflexivity].
    + rewrite bind_lift_normal.
      destruct (selection_accepted _ _ Ei) as (s & t & Hs & Ht & Hv).
      assert (Htt : ToString platform (get B (js "topic")) = Normal t)
        by now rewrite Ht.
      unfold dispatch.
      destruct (is_string (get B (js "action")) "generate").
      { right. right. right. exists (generate_call (c :: k) s t).
        split; [exists s, t; split; [assumption | now left]|].
        destruct (@generateQuestion_outcome _ _ _ _ (c :: k) Hs Htt)
          as [[e He] | (q & Tq & Hq)].
        - left. exists (message_or_default e).
          split; [apply message_or_default_nonempty|].
          rewrite He. reflexivity.
        - right. exists (obj [("question", q)]).
          split; [left; now exists q|].
          rewrite Hq, bind_normal. reflexivity. }
      destruct (is_string (get B (js "action")) "grade").
      2:{ left. exists "Unknown action.". split; [simpl; tauto | reflexivity]. }
      cbv zeta. fold B.
      destruct (negb (truthy (get B (js "question")))
                || negb (truthy (get B (js "answer")))).
      { left. exists "Missing question or answer for grading.".
        split; [simpl; tauto | reflexivity]. }
      destruct (@gradeAnswer_outcome _ _ (get B (js "question"))
                                     (get B (js "answer")) _ _ (c :: k) Hs Htt)
        as [[e He] | (q & a & [[e He] | (p & Tb & Sc & Hp)])].
      * right. right. left. exists (message_or_default e).
        split; [apply message_or_default_nonempty|].
        rewrite He. reflexivity.
      * right. right. right. exists (grade_call (c :: k) s t q a).
        split; [exists s, t; split; [assumption | right; now exists q, a]|].
        left. exists (message_or_default e).
        split; [apply message_or_default_nonempty|].
        rewrite He. reflexivity.
      * right. right. right. exists (grade_call (c :: k) s t q a).
        split; [exists s, t; split; [assumption | right; now exists q, a]|].
        right. exists (grading_of p).
        split; [right; now exists p|].
        rewrite Hp, bind_normal. reflexivity.
    + right. left. exists e, b. repeat split; assumption.
  - left. split; [|reflexivity].
    intros k [Hk _]. rewrite Ek in Hk. discriminate.
Qed.

(** [body || {}] changes nothing of what the code reads from the body: a
    falsy body has no property. *)
Lemma get_or_else_body (b : value) (k : jstr) :
  get (or_else b (VObj [])) k = get b k.
Proof.
  unfold or_else. destruct (truthy b) eqn:T; [reflexivity|].
  destruct b; try reflexivity; discriminate.
Qed.

Ltac post_cases ctx :=
  let E := fresh "E" in
  destruct (post_outcome ctx)
    as [[? E]
       | (? & ? & [(? & ? & E)
                  | [(? & ? & ? & ? & E)
                    | [(? & ? & E)
                      | (? & ? & [(? & ? & E) | (? & ? & E)])]]])];
  rewrite E in *; clear E.

(** *** The checks before the dispatch *)

(** X2.  With the credential configured, a body that does not parse as
    JSON, the empty body included, is answered 400 with "Invalid JSON
    body." and the provider is not called. *)
Theorem unparseable_body_is_400 (ctx : EventContext) (apiKey : jstr) :
  configured ctx apiKey ->
  JSON.parse (body (request ctx)) = None ->
  post ctx = (Normal (error_response 400 "Invalid JSON body." (cors (request ctx))), []).
Proof.
  intros [Hk Hne] Hp. unfold onRequestPost, api_key. rewrite Hk.
  destruct apiKey; [contradiction|]. now rewrite Hp.
Qed.

(** X3.  With the credential configured, a body that parses but whose
    [action], [subject] or [topic] is missing or falsy (the empty
    string, [0], [false], [null]) is answered 400 with "Missing required
    fields: action, subject, topic." and the provider is not called; so
    is every body that is not an object, [null] included. *)
Theorem missing_field_is_400 (ctx : EventContext) (apiKey : jstr)
        (b : value) (field : string) :
  configured ctx apiKey ->
  body_parses ctx b ->
  In field ["action"; "subject"; "topic"] ->
  truthy (get b (js field)) = false ->
  post ctx
  = (Normal (error_response 400 "Missing required fields: action, subject, topic."
                            (cors (request ctx))),
     []).
Proof.
  intros [Hk Hne] Hb Hin Hf. unfold onRequestPost, api_key. rewrite Hk.
  destruct apiKey; [contradiction|].
  unfold body_parses in Hb. rewrite Hb. cbv zeta.
  rewrite !get_or_else_body.
  assert (Hor : negb (truthy (get b (js "action")))
                || negb (truthy (get b (js "subject")))
                || negb (truthy (get b (js "topic"))) = true).
  { simpl in Hin. destruct Hin as [<-|[<-|[<-|[]]]]; rewrite Hf; cbn [negb orb].
    - reflexivity.
    - now rewrite orb_true_r.
    - now rewrite orb_true_r. }
  now rewrite Hor.
Qed.

(** X4.  The guard of line 166 accepts exactly the six pairs of the
    table among pairs of strings; and whatever values it accepts, the
    topic is a string and the subject prints as a subject of the table
    with that topic. *)
Theorem guard_accepts_exactly_the_table :
  (forall subject topic : jstr,
     invalid_selection platform (VStr subject) (VStr topic) = Normal false
     <-> valid_pair subject topic)
  /\ (forall subject topic : value,
        invalid_selection platform subject topic = Normal false ->
        exists s t : jstr,
          ToString platform subject = Normal s /\ topic = VStr t /\ valid_pair s t).
Proof.
  split.
  - intros subject topic. split.
    + intros H. apply selection_accepted in H as (s & t & Hs & Ht & Hv).
      inversion Hs; inversion Ht; subst. assumption.
    + apply valid_pair_accepted.
  - apply selection_accepted.
Qed.

(** X5.  With the credential configured and a pair of the table, an
    action that is neither the string "generate" nor the string "grade"
    (another string, another case, a number, an array) is answered 400
    with "Unknown action." and the provider is not called. *)
Theorem unknown_action_is_400 (ctx : EventContext) (apiKey : jstr)
        (b action : value) (subject topic : jstr) :
  configured ctx apiKey ->
  body_parses ctx b ->
  get b (js "action") = action ->
  truthy action = true ->
  is_string action "generate" = false ->
  is_string action "grade" = false ->
  get b (js "subject") = VStr subject ->
  get b (js "topic") = VStr topic ->
  valid_pair subject topic ->
  post ctx = (Normal (error_response 400 "Unknown action." (cors (request ctx))), []).
Proof.
  intros Hk Hb Ha Ta Ng Nr Hs Ht Hv.
  destruct (valid_pair_nonempty Hv) as [Hsn Htn].
  assert (Hd := @post_dispatches platform fetch ctx apiKey b action (VStr subject)
                                (VStr topic) Hk Hb).
  rewrite !get_or_else_body in Hd.
  rewrite (Hd Ha Hs Ht Ta (truthy_VStr Hsn) (truthy_VStr Htn)
              (valid_pair_accepted platform Hv)).
  unfold dispatch. rewrite Ng, Nr. reflexivity.
Qed.

(** *** The generate path on a reply that parses *)

(** X6.  For a generate request of the table, when the provider's
    content parses as JSON to a value with a truthy [question], the
    answer is 200 with [{question: <that value>}] and nothing else of
    the reply. *)
Theorem generate_returns_the_parsed_question (ctx : EventContext)
        (apiKey subject topic : jstr) (content parsed : value) :
  configured ctx apiKey ->
  generate_request ctx subject topic ->
  provider_replies fetch (generate_call apiKey subject topic) content ->
  JSON_parse platform content = Some parsed ->
  truthy (get parsed (js "question")) = true ->
  post ctx
  = (Normal (jsonResponse (obj [("question", get parsed (js "question"))]) 200
                          (cors (request ctx))),
     [generate_call apiKey subject topic]).
Proof.
  intros Hk Hr Hp Hparse Tq.
  rewrite (post_generate_replied platform Hk Hr Hp).
  unfold parsed_or_fallback. now rewrite Hparse, Tq.
Qed.

(** *** The allow-list, on every subject and topic *)

(** X1.  With the credential configured, an action and truthy subject
    and topic: when the subject prints as a key that names no property
    of [Object.prototype], and the topic is not a string of the table
    under that key (a topic of another subject, an unknown topic, a
    topic that is not a string), the answer is 400 with "Invalid
    subject/topic selection." and the provider is not called. *)
Theorem pair_outside_table_is_400 (ctx : EventContext) (apiKey : jstr)
        (b : value) (key : jstr) :
  configured ctx apiKey ->
  body_parses ctx b ->
  truthy (get b (js "action")) = true ->
  truthy (get b (js "subject")) = true ->
  truthy (get b (js "topic")) = true ->
  ToString platform (get b (js "subject")) = Normal key ->
  ~ In key Object_prototype_keys ->
  (forall topic : jstr,
     get b (js "topic") = VStr topic -> ~ valid_pair key topic) ->
  post ctx
  = (Normal (error_response 400 "Invalid subject/topic selection."
                            (cors (request ctx))),
     []).
Proof.
  intros [Hkey Hne] Hb Ta Ts Tt Hs Hproto Hpair.
  unfold onRequestPost, api_key. rewrite Hkey.
  destruct apiKey as [|c k]; [contradiction|].
  unfold body_parses in Hb. rewrite Hb. cbv zeta.
  rewrite !get_or_else_body, Ta, Ts, Tt. cbn [negb orb].
  assert (Hinv : invalid_selection platform (get b (js "subject"))
                                   (get b (js "topic")) = Normal true).
  { unfold invalid_selection, ALLOWED_at. rewrite Hs.
    destruct (own_topics key ALLOWED) as [ts|] eqn:Eo.
    - apply own_topics_In in Eo.
      destruct (get b (js "topic")) as [| | | |t| |] eqn:Et; try reflexivity.
      cbn [includes].
      destruct (existsb (jstr_eqb t) ts) eqn:Ex; [|reflexivity].
      apply existsb_jstr_eqb in Ex.
      exfalso. apply (Hpair t eq_refl). exists ts. now split.
    - destruct (existsb (jstr_eqb key) Object_prototype_keys) eqn:Ex;
        [|reflexivity].
      apply existsb_jstr_eqb in Ex. contradiction. }
  rewrite Hinv, bind_lift_normal. reflexivity.
Qed.

(** *** getCorsOrigin *)

(** X7.  Whatever the Origin header, [getCorsOrigin] returns one of the
    seven origins of its allow-set: a request's origin is never echoed
    unless it is one of them. *)
Theorem cors_origin_is_in_the_allow_set (request : Request) :
  In (cors request) allowed_origins.
Proof.
  unfold getCorsOrigin.
  destruct (URL_parse platform _) as [u|]; [|now left].
  cbv zeta.
  destruct (existsb (jstr_eqb (base_of u)) allowed_origins) eqn:E; [|now left].
  now apply existsb_jstr_eqb.
Qed.

(** *** What a POST sends to the provider *)

(** X8.  A POST calls the provider at most once, and a call it makes is
    the generate or the grade call for a pair of the table: to the chat
    completions URL, with the configured key as bearer token. *)
Theorem post_calls_the_provider_at_most_once (ctx : EventContext) :
  calls (post ctx) = []
  \/ exists (apiKey : jstr) (call : provider_request),
       calls (post ctx) = [call]
       /\ configured ctx apiKey
       /\ asks_provider apiKey call
       /\ url call = js "https://api.openai.com/v1/chat/completions"
       /\ method call = js "POST"
       /\ req_headers call
          = [ (js "Authorization", js "Bearer " ++ apiKey);
              (js "Content-Type", js "application/json") ].
Proof.
  post_cases ctx; try (left; reflexivity);
    right; eexists; eexists; (split; [reflexivity|]);
    (split; [eassumption|]); (split; [eassumption|]);
    match goal with
    | H : asks_provider _ _ |- _ =>
        destruct H as (s & t & _ & [-> | (q & a & ->)])
    end; repeat split.
Qed.

(** *** How status, body and provider call go together *)

(** X9.  A 400 response means the provider was not called, and its body
    is [{error: m}] for one of the five messages of the source. *)
Theorem bad_request_makes_no_call (ctx : EventContext) (r : Response) :
  returned (post ctx) = Some r ->
  status r = 400%N ->
  calls (post ctx) = []
  /\ exists msg : string,
       In msg bad_request_messages /\ data r = Some (error_body (js msg)).
Proof.
  intros Hr Hs. post_cases ctx; unfold returned in Hr; cbn [fst] in Hr;
    inversion Hr; subst; try discriminate Hs.
  split; [reflexivity|]. eexists. split; [eassumption | reflexivity].
Qed.

(** X10.  A 200 response means exactly one provider call, for a pair of
    the table; its body is [{question: q}] with [q] truthy, or the four
    grading fields with a truthy [grade_band] and a [score]. *)
Theorem success_means_one_call (ctx : EventContext) (r : Response) :
  returned (post ctx) = Some r ->
  status r = 200%N ->
  exists (apiKey : jstr) (call : provider_request) (d : value),
    configured ctx apiKey
    /\ asks_provider apiKey call
    /\ calls (post ctx) = [call]
    /\ data r = Some d
    /\ success_body d.
Proof.
  intros Hr Hs. post_cases ctx; unfold returned in Hr; cbn [fst] in Hr;
    inversion Hr; subst; try discriminate Hs.
  do 3 eexists. repeat (split; [eassumption || reflexivity|]). assumption.
Qed.

(** X11.  The status of a POST response is 200, 400 or 500, and every
    response that is not a 200 has the body [{error: m}] with [m] not
    empty. *)
Theorem post_status_and_error_body (ctx : EventContext) (r : Response) :
  returned (post ctx) = Some r ->
  (status r = 200%N \/ status r = 400%N \/ status r = 500%N)
  /\ (status r <> 200%N ->
      exists m : jstr, m <> [] /\ data r = Some (error_body m)).
Proof.
  intros Hr. post_cases ctx; unfold returned in Hr; cbn [fst] in Hr;
    inversion Hr; subst; (split; [cbn; tauto|]); intros Hs;
    try (exfalso; apply Hs; reflexivity);
    try (eexists; split; [eassumption | reflexivity]).
  - eexists. split; [|reflexivity]. discriminate.
  - match goal with
    | H : In _ bad_request_messages |- _ =>
        simpl in H;
        repeat (destruct H as [<-|H]; [eexists; split; [|reflexivity]; discriminate|]);
        contradiction
    end.
Qed.

(** X12.  Every POST response has four headers, whatever order the
    platform lists them in: Content-Type application/json, and the three
    CORS headers (Allow-Origin with the origin of [getCorsOrigin],
    Allow-Methods "POST, OPTIONS", Allow-Headers "Content-Type,
    Authorization"); the branch of [jsonResponse] that leaves the CORS
    headers out is never taken. *)
Theorem post_response_headers (ctx : EventContext) (r : Response) :
  returned (post ctx) = Some r ->
  headers_get (js "Content-Type") (headers r) = Some (js "application/json")
  /\ headers_get (js "Access-Control-Allow-Origin") (headers r)
     = Some (cors (request ctx))
  /\ headers_get (js "Access-Control-Allow-Methods") (headers r)
     = Some (js "POST, OPTIONS")
  /\ headers_get (js "Access-Control-Allow-Headers") (headers r)
     = Some (js "Content-Type, Authorization")
  /\ List.length (headers r) = 4%nat.
Proof.
  intros H. apply post_returned in H as (d & st & ->).
  assert (Hn := @cors_nonempty platform (request ctx)).
  destruct (cors (request ctx)); [contradiction|].
  repeat split.
Qed.

(** *** When the handler throws *)

Lemma post_throw_inversion (ctx : EventContext) (e : JsError)
      (log : list provider_request) :
  post ctx = (Throw e, log) ->
  log = []
  /\ (exists apiKey : jstr, configured ctx apiKey)
  /\ exists b : value,
       body_parses ctx b
       /\ truthy (get b (js "action")) = true
       /\ truthy (get b (js "subject")) = true
       /\ truthy (get b (js "topic")) = true
       /\ invalid_selection platform (get b (js "subject")) (get b (js "topic"))
          = Throw e.
Proof.
  intros H.
  assert (Hlog : log = []) by (post_cases ctx; inversion H; reflexivity).
  subst log. split; [reflexivity|].
  unfold onRequestPost, api_key in H.
  destruct (OPENAI_API_KEY (env ctx)) as [[|c k]|] eqn:Ek; try discriminate H.
  split; [exists (c :: k); split; [assumption | discriminate]|].
  destruct (JSON.parse (body (request ctx))) as [b|] eqn:Ep; [|discriminate H].
  cbv zeta in H. rewrite !get_or_else_body in H.
  exists b. split; [assumption|].
  destruct (truthy (get b (js "action"))); [|discriminate H].
  destruct (truthy (get b (js "subject"))); [|discriminate H].
  destruct (truthy (get b (js "topic"))); [|discriminate H].
  cbn [negb orb] in H. repeat (split; [reflexivity|]).
  destruct (invalid_selection platform (get b (js "subject")) (get b (js "topic")))
    as [[|]|e'] eqn:Ei.
  - rewrite bind_lift_normal in H. discriminate H.
  - rewrite bind_lift_normal in H.
    destruct (try_catch_returns
                (dispatch platform fetch (cors (request ctx)) b
                          (get b (js "action")) (get b (js "subject"))
                          (get b (js "topic")) (c :: k))
                (fun e0 => jsonResponse (error_body (message_or_default e0)) 500
                                        (cors (request ctx))))
      as [r Hr].
    rewrite Hr in H. discriminate H.
  - cbn in H. inversion H. reflexivity.
Qed.

(** X13.  A POST that throws does so at the guard of line 166 and
    nowhere else: the credential is configured, the body parsed and
    holds a truthy action, subject and topic, what is thrown is what the
    guard throws on that subject and topic, and the provider has not
    been called. *)
Theorem post_throws_only_at_the_guard (ctx : EventContext) (e : JsError)
        (log : list provider_request) :
  post ctx = (Throw e, log) ->
  log = []
  /\ (exists apiKey : jstr, configured ctx apiKey)
  /\ exists b : value,
       body_parses ctx b
       /\ truthy (get b (js "action")) = true
       /\ truthy (get b (js "subject")) = true
       /\ truthy (get b (js "topic")) = true
       /\ invalid_selection platform (get b (js "subject")) (get b (js "topic"))
          = Throw e.
Proof. apply post_throw_inversion. Qed.

(** X14.  A POST whose body has no subject, or as subject a string that
    names no property of [Object.prototype], is always answered: the
    handler returns a response, whatever the credential, the other
    fields and the provider. *)
Theorem plain_subject_is_always_answered (ctx : EventContext) :
  (forall b : value,
     body_parses ctx b ->
     get b (js "subject") = VUndefined
     \/ exists s : jstr,
          get b (js "subject") = VStr s /\ ~ In s Object_prototype_keys) ->
  exists r : Response, post ctx = (Normal r, calls (post ctx)).
Proof.
  intros Hsub.
  destruct (post ctx) as [[r|e] log] eqn:E; [now exists r|].
  exfalso.
  destruct (@post_throw_inversion ctx e log E)
    as (_ & _ & b & Hb & _ & _ & _ & Hi).
  destruct (Hsub b Hb) as [Hu | (s & Hs & Hn)].
  - rewrite Hu in Hi. unfold invalid_selection in Hi. cbn in Hi. discriminate.
  - rewrite Hs in Hi. unfold invalid_selection, ALLOWED_at in Hi.
    cbn [ToString] in Hi.
    destruct (own_topics s ALLOWED); [discriminate|].
    destruct (existsb (jstr_eqb s) Object_prototype_keys) eqn:Ex;
      [|discriminate].
    apply existsb_jstr_eqb in Ex. contradiction.
Qed.

(** *** Replies the two actions cannot use *)

(** X15.  For a generate request of the table, when the provider's
    content is not a string (an object, an array, a number, [true]) and
    does not parse as JSON, the fallback of line 76 throws, [trim] not
    being a function of the content: the answer is 500 with a message
    that is not empty, after the one provider call. *)
Theorem generate_content_without_trim_is_500 (ctx : EventContext)
        (apiKey subject topic : jstr) (content : value) :
  configured ctx apiKey ->
  generate_request ctx subject topic ->
  provider_replies fetch (generate_call apiKey subject topic) content ->
  (forall s : jstr, content <> VStr s) ->
  JSON_parse platform content = None ->
  exists e : JsError,
    name e = js "TypeError"
    /\ message e <> []
    /\ generateQuestion platform fetch (VStr subject) (VStr topic) apiKey
       = (Throw e, [generate_call apiKey subject topic])
    /\ post ctx
       = (Normal (jsonResponse (error_body (message e)) 500 (cors (request ctx))),
          [generate_call apiKey subject topic]).
Proof.
  intros Hk Hr Hp Hns Hparse.
  assert (Ht : content_trim content
               = Throw (TypeError (js "content?.trim is not a function"))).
  { destruct Hp as (reply & d & _ & _ & _ & Hc).
    destruct content; try reflexivity.
    - unfold reply_content, or_else in Hc.
      destruct (truthy _) eqn:T; [|discriminate]. rewrite Hc in T. discriminate.
    - unfold reply_content, or_else in Hc.
      destruct (truthy _) eqn:T; [|discriminate]. rewrite Hc in T. discriminate.
    - exfalso. now apply (Hns s). }
  exists (TypeError (js "content?.trim is not a function")).
  split; [reflexivity|]. split; [discriminate|]. split.
  - rewrite generateQuestion_chat, (chat_replies Hp), bind_normal.
    rewrite Hparse, Ht. reflexivity.
  - rewrite (post_generate_replied platform Hk Hr Hp).
    unfold parsed_or_fallback. rewrite Hparse, Ht. reflexivity.
Qed.

(** X16.  For a grade request of the table whose question or answer
    cannot be printed into the prompt ([ToString] throws: an object with
    an own [toString] property), the error is caught: the answer is 500
    with the error's message, and the provider is not called. *)
Theorem grade_unprintable_question_is_500 (ctx : EventContext)
        (apiKey subject topic : jstr) (question answer : value) (e : JsError) :
  configured ctx apiKey ->
  grade_request ctx subject topic question answer ->
  truthy question = true ->
  truthy answer = true ->
  ToString platform question = Throw e
  \/ (exists q : jstr, ToString platform question = Normal q)
     /\ ToString platform answer = Throw e ->
  post ctx
  = (Normal (jsonResponse (error_body (message_or_default e)) 500
                          (cors (request ctx))),
     []).
Proof.
  intros Hk Hr Tq Ta He.
  rewrite post_grade
    with (apiKey := apiKey) (subject := subject) (topic := topic)
         (question := question) (answer := answer) by assumption.
  rewrite Tq, Ta. cbn [negb orb].
  unfold gradeAnswer. cbn [ToString]. rewrite !bind_lift_normal.
  destruct He as [He | [(q & Hq) He]].
  - rewrite He. reflexivity.
  - rewrite Hq, bind_lift_normal, He. reflexivity.
Qed.

(** X17.  When the provider answers with a success status and a body
    that [resp.json()] cannot read, the error is caught: a generate or a
    grade request of the table is answered 500 with the error's message
    ("Internal error." when it has none), after the one provider call. *)
Theorem unreadable_reply_is_500 (ctx : EventContext) (apiKey : jstr)
        (reply : provider_response) (e : JsError) :
  configured ctx apiKey ->
  ok reply = true ->
  resp_json reply = Throw e ->
  (forall subject topic : jstr,
     generate_request ctx subject topic ->
     fetch (generate_call apiKey subject topic) = Resolves reply ->
     post ctx
     = (Normal (jsonResponse (error_body (message_or_default e)) 500
                             (cors (request ctx))),
        [generate_call apiKey subject topic]))
  /\ (forall (subject topic : jstr) (question answer : value) (q a : jstr),
        grade_request ctx subject topic question answer ->
        gradable platform question answer q a ->
        fetch (grade_call apiKey subject topic q a) = Resolves reply ->
        post ctx
        = (Normal (jsonResponse (error_body (message_or_default e)) 500
                                (cors (request ctx))),
           [grade_call apiKey subject topic q a])).
Proof.
  intros Hk Hok Hj.
  assert (Hc : forall call, fetch call = Resolves reply ->
                            chat fetch call = (Throw e, [call])).
  { intros call Hf. unfold chat, await_fetch.
    rewrite Hf, bind_normal, Hok. cbn [negb]. rewrite Hj. reflexivity. }
  split.
  - intros subject topic Hr Hf.
    apply post_generate_chat_throws; [assumption | assumption | now apply Hc].
  - intros subject topic question answer q a Hr Hg Hf.
    apply post_grade_chat_throws with (question := question) (answer := answer);
      [assumption | assumption | assumption | now apply Hc].
Qed.

(** X18.  When the provider answers with a success status and a body
    without a usable message content (no [choices], an empty [choices],
    no [message], a content that is missing, [null] or empty), the
    content is the empty string: a generate request of the table is
    answered 500 with "No question returned from model.", a grade
    request 500 with "Failed to parse grading JSON.". *)
Theorem reply_without_content_is_500 (ctx : EventContext) (apiKey : jstr)
        (reply : provider_response) (d : value) :
  configured ctx apiKey ->
  ok reply = true ->
  resp_json reply = Normal d ->
  truthy (opt_get (opt_get (opt_index0 (opt_get d (js "choices"))) (js "message"))
                  (js "content")) = false ->
  (forall subject topic : jstr,
     generate_request ctx subject topic ->
     fetch (generate_call apiKey subject topic) = Resolves reply ->
     post ctx
     = (Normal (error_response 500 "No question returned from model."
                               (cors (request ctx))),
        [generate_call apiKey subject topic]))
  /\ (forall (subject topic : jstr) (question answer : value) (q a : jstr),
        grade_request ctx subject topic question answer ->
        gradable platform question answer q a ->
        fetch (grade_call apiKey subject topic q a) = Resolves reply ->
        post ctx
        = (Normal (error_response 500 "Failed to parse grading JSON."
                                  (cors (request ctx))),
           [grade_call apiKey subject topic q a])).
Proof.
  intros Hk Hok Hj Hc.
  assert (Hp : forall call, fetch call = Resolves reply ->
                            provider_replies fetch call (VStr [])).
  { intros call Hf. exists reply, d. repeat (split; [assumption|]).
    unfold reply_content, or_else. now rewrite Hc. }
  split.
  - intros subject topic Hr Hf.
    rewrite post_generate_replied
      with (apiKey := apiKey) (subject := subject) (topic := topic)
           (content := VStr []) by auto.
    reflexivity.
  - intros subject topic question answer q a Hr Hg Hf.
    rewrite post_grade_replied
      with (apiKey := apiKey) (subject := subject) (topic := topic)
           (question := question) (answer := answer) (q := q) (a := a)
           (content := VStr []) by auto.
    reflexivity.
Qed.

End Coverage.

(* ================================================================== *)
(** ** The further properties on concrete requests *)

(** X1 on a topic of another subject: Physics with Genetics. *)
Lemma physics_genetics_is_400 :
  onRequestPost example_platform (provider_says (str "unused"))
    (example_post "{'action':'generate','subject':'Physics','topic':'Genetics'}")
  = (Normal (error_response 400 "Invalid subject/topic selection."
                            (js "http://localhost:3000")),
     []).
Proof.
  apply (@pair_outside_table_is_400 example_platform
           (provider_says (str "unused"))
           (example_post
              "{'action':'generate','subject':'Physics','topic':'Genetics'}")
           (js "sk-test")
           (obj [ ("action", str "generate"); ("subject", str "Physics");
                  ("topic", str "Genetics") ])
           (js "Physics")).
  - apply example_configured.
  - reflexivity.
  - reflexivity.
  - reflexivity.
  - reflexivity.
  - reflexivity.
  - intros H. simpl in H.
    repeat (destruct H as [H|H]; [discriminate H|]). exact H.
  - intros topic Ht Hv. inversion Ht; subst.
    apply valid_pair_cases in Hv. simpl in Hv.
    repeat (destruct Hv as [Hv|Hv]; [discriminate Hv|]). exact Hv.
Defined.

(** X2 on the empty body. *)
Lemma empty_body_is_400 :
  onRequestPost example_platform (provider_says (str "unused")) (example_post "")
  = (Normal (error_response 400 "Invalid JSON body." (js "http://localhost:3000")),
     []).
Proof.
  apply (@unparseable_body_is_400 example_platform (provider_says (str "unused"))
           (example_post "") (js "sk-test")).
  - apply example_configured.
  - reflexivity.
Defined.

(** X3 on the body [null]. *)
Lemma null_body_is_400 :
  JSON.parse (js "null") = Some VNull
  /\ onRequestPost example_platform (provider_says (str "unused"))
                   (example_post "null")
     = (Normal (error_response 400 "Missing required fields: action, subject, topic."
                               (js "http://localhost:3000")),
        []).
Proof.
  split; [reflexivity|].
  apply (@missing_field_is_400 example_platform (provider_says (str "unused"))
           (example_post "null") (js "sk-test") VNull "action").
  - apply example_configured.
  - reflexivity.
  - left. reflexivity.
  - reflexivity.
Defined.

(** X5 on the action "Generate", which is not "generate". *)
Lemma capitalised_action_is_400 :
  onRequestPost example_platform (provider_says (str "unused"))
    (example_post "{'action':'Generate','subject':'Physics','topic':'Electricity'}")
  = (Normal (error_response 400 "Unknown action." (js "http://localhost:3000")), []).
Proof.
  apply (@unknown_action_is_400 example_platform (provider_says (str "unused"))
           (example_post
              "{'action':'Generate','subject':'Physics','topic':'Electricity'}")
           (js "sk-test")
           (obj [ ("action", str "Generate"); ("subject", str "Physics");
                  ("topic", str "Electricity") ])
           (str "Generate") (js "Physics") (js "Electricity")).
  - apply example_configured.
  - reflexivity.
  - reflexivity.
  - reflexivity.
  - reflexivity.
  - reflexivity.
  - reflexivity.
  - reflexivity.
  - exact example_valid_pair.
Defined.

(** X6 on a reply with a question and a hint: only the question comes
    back. *)
Lemma generate_drops_the_hint :
  onRequestPost example_platform
    (provider_says (VStr (jq "{'question':'Q','hint':'H'}")))
    (example_post generate_body)
  = (Normal (jsonResponse (obj [("question", str "Q")]) 200
                          (js "http://localhost:3000")),
     [example_generate_call]).
Proof.
  apply (@generate_returns_the_parsed_question example_platform
           (provider_says (VStr (jq "{'question':'Q','hint':'H'}")))
           (example_post generate_body)
           (js "sk-test") (js "Physics") (js "Electricity")
           (VStr (jq "{'question':'Q','hint':'H'}"))
           (obj [("question", str "Q"); ("hint", str "H")])).
  - apply example_configured.
  - exact example_generate_request.
  - apply provider_says_replies. reflexivity.
  - reflexivity.
  - reflexivity.
Defined.

(** X9 on Physics with Genetics. *)
Lemma physics_genetics_makes_no_call :
  calls (onRequestPost example_platform (provider_says (str "unused"))
           (example_post
              "{'action':'generate','subject':'Physics','topic':'Genetics'}"))
  = []
  /\ exists msg : string,
       In msg bad_request_messages
       /\ data (error_response 400 "Invalid subject/topic selection."
                               (js "http://localhost:3000"))
          = Some (error_body (js msg)).
Proof.
  apply (@bad_request_makes_no_call example_platform
           (provider_says (str "unused"))
           (example_post
              "{'action':'generate','subject':'Physics','topic':'Genetics'}")
           (error_response 400 "Invalid subject/topic selection."
                           (js "http://localhost:3000"))).
  - reflexivity.
  - reflexivity.
Defined.

(** X10 on a generate request answered with a question. *)
Lemma generate_success_makes_one_call :
  exists (apiKey : jstr) (call : provider_request) (d : value),
    configured (example_post generate_body) apiKey
    /\ asks_provider apiKey call
    /\ calls (onRequestPost example_platform
                (provider_says (VStr (jq "{'question':'Q'}")))
                (example_post generate_body))
       = [call]
    /\ data (jsonResponse (obj [("question", str "Q")]) 200
                          (js "http://localhost:3000"))
       = Some d
    /\ success_body d.
Proof.
  apply (@success_means_one_call example_platform
           (provider_says (VStr (jq "{'question':'Q'}")))
           (example_post generate_body)
           (jsonResponse (obj [("question", str "Q")]) 200
                         (js "http://localhost:3000"))).
  - reflexivity.
  - reflexivity.
Defined.

(** X11 on a provider that answers 503. *)
Lemma provider_503_error_body :
  (status (error_response 500 "OpenAI error (503)" (js "http://localhost:3000"))
   = 200%N
   \/ status (error_response 500 "OpenAI error (503)" (js "http://localhost:3000"))
      = 400%N
   \/ status (error_response 500 "OpenAI error (503)" (js "http://localhost:3000"))
      = 500%N)
  /\ (status (error_response 500 "OpenAI error (503)" (js "http://localhost:3000"))
      <> 200%N ->
      exists m : jstr,
        m <> []
        /\ data (error_response 500 "OpenAI error (503)"
                                (js "http://localhost:3000"))
           = Some (error_body m)).
Proof.
  apply (@post_status_and_error_body example_platform (provider_status 503)
           (example_post generate_body)
           (error_response 500 "OpenAI error (503)" (js "http://localhost:3000"))).
  reflexivity.
Defined.

(** X12 on the same request. *)
Lemma provider_503_headers :
  headers_get (js "Content-Type")
    (headers (error_response 500 "OpenAI error (503)" (js "http://localhost:3000")))
  = Some (js "application/json")
  /\ headers_get (js "Access-Control-Allow-Origin")
       (headers (error_response 500 "OpenAI error (503)"
                                (js "http://localhost:3000")))
     = Some (js "http://localhost:3000")
  /\ headers_get (js "Access-Control-Allow-Methods")
       (headers (error_response 500 "OpenAI error (503)"
                                (js "http://localhost:3000")))
     = Some (js "POST, OPTIONS")
  /\ headers_get (js "Access-Control-Allow-Headers")
       (headers (error_response 500 "OpenAI error (503)"
                                (js "http://localhost:3000")))
     = Some (js "Content-Type, Authorization")
  /\ List.length
       (headers (error_response 500 "OpenAI error (503)"
                                (js "http://localhost:3000")))
     = 4%nat.
Proof.
  apply (@post_response_headers example_platform (provider_status 503)
           (example_post generate_body)
           (error_response 500 "OpenAI error (503)" (js "http://localhost:3000"))).
  reflexivity.
Defined.

(** X13 on the subject "constructor". *)
Lemma constructor_throw_is_at_the_guard :
  @nil provider_request = []
  /\ (exists apiKey : jstr,
        configured
          (example_post
             "{'action':'generate','subject':'constructor','topic':'Electricity'}")
          apiKey)
  /\ exists b : value,
       body_parses
         (example_post
            "{'action':'generate','subject':'constructor','topic':'Electricity'}")
         b
       /\ truthy (get b (js "action")) = true
       /\ truthy (get b (js "subject")) = true
       /\ truthy (get b (js "topic")) = true
       /\ invalid_selection example_platform (get b (js "subject"))
                            (get b (js "topic"))
          = Throw (TypeError (js "ALLOWED[subject].includes is not a function")).
Proof.
  apply (@post_throws_only_at_the_guard example_platform
           (provider_says (str "unused"))
           (example_post
              "{'action':'generate','subject':'constructor','topic':'Electricity'}")
           (TypeError (js "ALLOWED[subject].includes is not a function")) []).
  reflexivity.
Defined.

(** X14 on a generate request for Physics. *)
Lemma physics_request_is_answered :
  exists r : Response,
    onRequestPost example_platform (provider_fails (Error []))
                  (example_post generate_body)
    = (Normal r,
       calls (onRequestPost example_platform (provider_fails (Error []))
                            (example_post generate_body))).
Proof.
  apply (@plain_subject_is_always_answered example_platform
           (provider_fails (Error [])) (example_post generate_body)).
  intros b Hb. unfold body_parses in Hb. vm_compute in Hb.
  inversion Hb; subst. right. exists (js "Physics").
  split; [reflexivity|].
  intros H. simpl in H.
  repeat (destruct H as [H|H]; [discriminate H|]). exact H.
Defined.

(** X15 on a content that is an array. *)
Lemma generate_array_content_is_500 :
  exists e : JsError,
    name e = js "TypeError"
    /\ message e <> []
    /\ generateQuestion example_platform (provider_says (VArr [str "What?"]))
                        (str "Physics") (str "Electricity") (js "sk-test")
       = (Throw e, [example_generate_call])
    /\ onRequestPost example_platform (provider_says (VArr [str "What?"]))
                     (example_post generate_body)
       = (Normal (jsonResponse (error_body (message e)) 500
                               (js "http://localhost:3000")),
          [example_generate_call]).
Proof.
  apply (@generate_content_without_trim_is_500 example_platform
           (provider_says (VArr [str "What?"]))
           (example_post generate_body)
           (js "sk-test") (js "Physics") (js "Electricity")
           (VArr [str "What?"])).
  - apply example_configured.
  - exact example_generate_request.
  - apply provider_says_replies. reflexivity.
  - discriminate.
  - reflexivity.
Defined.

(** X16 on a question that is an object with its own [toString]. *)
Lemma grade_object_question_is_500 :
  onRequestPost example_platform (provider_says (str "unused"))
    (example_post
       "{'action':'grade','subject':'Physics','topic':'Electricity','question':{'toString':1},'answer':'a'}")
  = (Normal (error_response 500 "Cannot convert object to primitive value"
                            (js "http://localhost:3000")),
     []).
Proof.
  apply (@grade_unprintable_question_is_500 example_platform
           (provider_says (str "unused"))
           (example_post
              "{'action':'grade','subject':'Physics','topic':'Electricity','question':{'toString':1},'answer':'a'}")
           (js "sk-test") (js "Physics") (js "Electricity")
           (obj [("toString", VNum 1 0)]) (str "a")
           (TypeError (js "Cannot convert object to primitive value"))).
  - apply example_configured.
  - eexists. split; [reflexivity|].
    repeat (split; [reflexivity|]).
    split; [exact example_valid_pair|]. split; reflexivity.
  - reflexivity.
  - reflexivity.
  - left. reflexivity.
Defined.

(** X17 on a reply whose body is cut short. *)
Lemma generate_unreadable_reply_is_500 :
  onRequestPost example_platform
    (fun _ =>
       Resolves (mkReply 200 (Throw (mkError (js "SyntaxError")
                                             (js "Unexpected end of JSON input")))))
    (example_post generate_body)
  = (Normal (error_response 500 "Unexpected end of JSON input"
                            (js "http://localhost:3000")),
     [example_generate_call]).
Proof.
  apply (@unreadable_reply_is_500 example_platform
           (fun _ =>
              Resolves (mkReply 200 (Throw (mkError (js "SyntaxError")
                                                    (js "Unexpected end of JSON input")))))
           (example_post generate_body) (js "sk-test")
           (mkReply 200 (Throw (mkError (js "SyntaxError")
                                        (js "Unexpected end of JSON input"))))
           (mkError (js "SyntaxError") (js "Unexpected end of JSON input"))
           (example_configured generate_body) eq_refl eq_refl).
  - exact example_generate_request.
  - reflexivity.
Defined.

(** X18 on a reply that is the empty object. *)
Lemma reply_without_choices_is_500 :
  onRequestPost example_platform (provider_status 200) (example_post generate_body)
  = (Normal (error_response 500 "No question returned from model."
                            (js "http://localhost:3000")),
     [example_generate_call])
  /\ onRequestPost example_platform (provider_status 200) (example_post grade_body)
     = (Normal (error_response 500 "Failed to parse grading JSON."
                               (js "http://localhost:3000")),
        [example_grade_call]).
Proof.
  split.
  - apply (@reply_without_content_is_500 example_platform (provider_status 200)
             (example_post generate_body) (js "sk-test")
             (mkReply 200 (Normal (VObj []))) (VObj [])
             (example_configured generate_body) eq_refl eq_refl eq_refl).
    + exact example_generate_request.
    + reflexivity.
  - apply (proj2 (@reply_without_content_is_500 example_platform
                    (provider_status 200)
                    (example_post grade_body) (js "sk-test")
                    (mkReply 200 (Normal (VObj []))) (VObj [])
                    (example_configured grade_body) eq_refl eq_refl eq_refl))
      with (question := str "What is voltage?")
           (answer := str "Energy per unit charge.").
    + exact example_grade_request.
    + exact example_gradable.
    + reflexivity.
Defined.
